(** * The Databricks chat-completion provider (src/providers/databricks.ts)

    A shallow embedding of the provider: the JavaScript values a decoded
    response body is made of, the member reads and coercions the adapter
    performs on them, the configuration resolution of
    [DatabricksGenericProvider], and [callApi] of
    [DatabricksChatCompletionProvider] with its token-usage, cost and error
    normalisation.

    Numbers are IEEE 754 binary64 values, as in JavaScript. *)

From Stdlib Require Import Floats.
From stdpp Require Import base option list strings gmap.

Set Warnings "-inexact-float,-register-all".

(** ** JavaScript values *)

(** What [JSON.parse] can produce, plus [undefined], which is what a read of a
    missing member yields. An object keeps its members in insertion order. *)
Inductive value : Type :=
  | VUndefined
  | VNull
  | VBool (b : bool)
  | VNum (x : float)
  | VStr (s : string)
  | VArr (items : list value)
  | VObj (fields : list (string * value)).

(** What a [throw] can carry: the two error classes the code meets, or any
    other value (a collaborator may throw anything). *)
Inductive exn : Type :=
  | TypeError (msg : string)
  | Error (msg : string)
  | Thrown (v : value).

(** The outcome of evaluating an expression or a block: a value, or an
    exception on its way to the nearest [catch]. *)
Inductive completion (A : Type) : Type :=
  | Normal (a : A)
  | Throw (e : exn).
Arguments Normal {A} a.
Arguments Throw {A} e.

#[global] Instance completion_ret : MRet completion := @Normal.
#[global] Instance completion_bind : MBind completion :=
  λ A B f m, match m with Normal a => f a | Throw e => Throw e end.

(** [try { body } catch (err) { handler }] *)
Definition try_catch {A} (body : completion A) (handler : exn → completion A)
  : completion A :=
  match body with
  | Normal a => Normal a
  | Throw err => handler err
  end.

(** [v === null || v === undefined] *)
Definition is_nullish (v : value) : bool :=
  match v with
  | VUndefined | VNull => true
  | _ => false
  end.

(** A number is falsy when it is [0], [-0] or [NaN]. *)
Definition number_truthy (x : float) : bool :=
  negb (PrimFloat.is_zero x || PrimFloat.is_nan x).

(** ToBoolean: what [if (v)], [!v], [v && _], [v || _] and [v ? _ : _] test. *)
Definition is_truthy (v : value) : bool :=
  match v with
  | VUndefined | VNull => false
  | VBool b => b
  | VNum x => number_truthy x
  | VStr s => negb (String.eqb s "")
  | VArr _ | VObj _ => true
  end.

(** The own member [k] of an object, [undefined] when there is none. *)
Fixpoint own (k : string) (fields : list (string * value)) : value :=
  match fields with
  | [] => VUndefined
  | (k', v) :: rest => if String.eqb k k' then v else own k rest
  end.

(** [v.k] on a value that is neither [null] nor [undefined]. The members the
    adapter reads by name ([error], [message], [type], [code], [choices],
    [content], [function_call], [tool_calls], [logprobs], [logprob], [name],
    [arguments], [usage] and the three token counts) are no built-in member
    of a string, number, boolean or array, so only an object can hold one. *)
Definition member (v : value) (k : string) : value :=
  match v with
  | VObj fields => own k fields
  | _ => VUndefined
  end.

(** The message of V8's TypeError for a member read on [null] or [undefined]. *)
Definition cannot_read (v : value) (k : string) : exn :=
  TypeError ("Cannot read properties of "
             +:+ (match v with VNull => "null" | _ => "undefined" end)
             +:+ " (reading '" +:+ k +:+ "')").

(** [v.k] *)
Definition get (v : value) (k : string) : completion value :=
  if is_nullish v then Throw (cannot_read v k) else Normal (member v k).

(** [v?.k] *)
Definition get_optional (v : value) (k : string) : value :=
  if is_nullish v then VUndefined else member v k.

(** [v[0]]: the first element of an array, the member ["0"] of an object, the
    first character of a string. *)
Definition get_first (v : value) : completion value :=
  match v with
  | VUndefined | VNull => Throw (cannot_read v "0")
  | VArr items => Normal (default VUndefined (head items))
  | VObj fields => Normal (own "0" fields)
  | VStr (String c _) => Normal (VStr (String c ""))
  | _ => Normal VUndefined
  end.

(** [a || b] and [a && b]; the right operand is evaluated only when needed. *)
Definition js_or (a b : completion value) : completion value :=
  v ← a; if is_truthy v then Normal v else b.
Definition js_and (a b : completion value) : completion value :=
  v ← a; if is_truthy v then b else Normal v.

(** What [for (const x of v)] iterates over: the elements of an array, the
    characters of a string; any other value is not iterable. *)
Definition iterate (what : string) (v : value) : completion (list value) :=
  match v with
  | VArr items => Normal items
  | VStr s => Normal ((λ c, VStr (String c "")) <$> String.list_ascii_of_string s)
  | _ => Throw (TypeError (what +:+ " is not iterable"))
  end.

(** A [string | undefined] of the configuration: [undefined] and the empty
    string are falsy. *)
Definition str_truthy (o : option string) : bool :=
  match o with
  | Some s => negb (String.eqb s "")
  | None => false
  end.

(** [a || b] on [string | undefined]. *)
Definition str_or (a b : option string) : option string :=
  if str_truthy a then a else b.

(** [`${o}`] for a [string | undefined]. *)
Definition str_text (o : option string) : string := default "undefined" o.

(** [x || undefined] on a number. *)
Definition number_or_undefined (x : float) : option float :=
  if number_truthy x then Some x else None.

(** ** Members every object inherits *)

(** The member names of [Object.prototype]. A read by a computed name, such
    as [table[name]], finds these in every plain object, and each of them is
    truthy (eleven functions and the [__proto__] accessor, which gives the
    prototype object). *)
Definition Object_prototype_names : list string :=
  ["constructor"; "__defineGetter__"; "__defineSetter__"; "hasOwnProperty";
   "__lookupGetter__"; "__lookupSetter__"; "isPrototypeOf";
   "propertyIsEnumerable"; "toString"; "valueOf"; "__proto__"; "toLocaleString"].

Definition inherited (name : string) : bool :=
  existsb (String.eqb name) Object_prototype_names.

(** What [table[name]] finds in a plain object whose own members are of type
    [A]: a member of its own, or the member of that name it inherits. *)
Inductive found (A : Type) : Type :=
  | Own (a : A)
  | Inherited (name : string).
Arguments Own {A} a.
Arguments Inherited {A} name.

(** [table[name]] *)
Definition lookup_by_name {A : Type} (table : gmap string A) (name : string)
  : option (found A) :=
  match table !! name with
  | Some a => Some (Own a)
  | None => if inherited name then Some (Inherited name) else None
  end.

(** [String(Object.prototype[name])] as V8 prints it: the prototype object
    for [__proto__], a native function otherwise. *)
Definition inherited_text (name : string) : string :=
  if String.eqb name "__proto__" then "[object Object]"
  else if String.eqb name "constructor" then "function Object() { [native code] }"
  else "function " +:+ name +:+ "() { [native code] }".

(** A value read from an object of strings, by a fixed or a computed name:
    a string of its own, an inherited member, or nothing. *)
Definition found_truthy (o : option (found string)) : bool :=
  match o with
  | Some (Own s) => negb (String.eqb s "")
  | Some (Inherited _) => true
  | None => false
  end.

(** [a || b] *)
Definition found_or (a b : option (found string)) : option (found string) :=
  if found_truthy a then a else b.

(** [`${o}`] *)
Definition found_text (o : option (found string)) : string :=
  match o with
  | Some (Own s) => s
  | Some (Inherited name) => inherited_text name
  | None => "undefined"
  end.

(** A [string | undefined] that was read by a fixed name. *)
Definition own_text (o : option string) : option (found string) := Own <$> o.

(** An object has a member of its own named [k]. *)
Definition has_own (k : string) (fields : list (string * value)) : bool :=
  existsb (λ member, String.eqb k member.1) fields.

(** ** Built-ins and helpers outside this file *)

(** A callback of [functionToolCallbacks]: an async function of the argument
    it is handed, resolving to a string or rejecting. *)
Abbreviation callback := (value → completion string).

(** [Number_toString] is JavaScript's Number::toString, [StringToNumber] its
    StringToNumber; [JSON_stringify v] is the text [JSON.stringify(v)]
    contributes to a template literal; [safeJsonStringify] is the repository's
    helper imported from [../util]; [call_inherited name table argument] is
    what [await table[name](argument)] completes with when [name] is a member
    the callback table inherits. *)
Class Builtins : Type := {
  Number_toString : float → string;
  StringToNumber : string → float;
  JSON_stringify : value → string;
  safeJsonStringify : value → bool → string;
  call_inherited : string → gmap string callback → value → completion value
}.

(** [Error.prototype.toString]: the name alone when the message is empty. *)
Definition error_text (name msg : string) : string :=
  if String.eqb msg "" then name else name +:+ ": " +:+ msg.

Section Coercions.
Context {js : Builtins}.

(** [String(v)], also what a template literal and a computed member name
    apply to [v]. An object with a member of its own named [toString] (which
    in a decoded body is never a function) cannot be converted; any other
    object prints as ["[object Object]"]; a list joins its elements. *)
Fixpoint ToString (v : value) : completion string :=
  match v with
  | VUndefined => Normal "undefined"
  | VNull => Normal "null"
  | VBool true => Normal "true"
  | VBool false => Normal "false"
  | VNum x => Normal (Number_toString x)
  | VStr s => Normal s
  | VArr items =>
      texts ←
        (fix join (items : list value) : completion (list string) :=
           match items with
           | [] => Normal []
           | item :: rest =>
               text ← (if is_nullish item then Normal "" else ToString item);
               texts ← join rest;
               Normal (text :: texts)
           end) items;
      Normal (String.concat "," texts)
  | VObj fields =>
      if has_own "toString" fields
      then Throw (TypeError "Cannot convert object to primitive value")
      else Normal "[object Object]"
  end.

(** ToNumber, which the arithmetic operators apply to their operands. *)
Definition ToNumber (v : value) : completion float :=
  match v with
  | VUndefined => Normal nan
  | VNull => Normal 0%float
  | VBool true => Normal 1%float
  | VBool false => Normal 0%float
  | VNum x => Normal x
  | VStr s => Normal (StringToNumber s)
  | VArr _ => text ← ToString v; Normal (StringToNumber text)
  | VObj fields =>
      if has_own "toString" fields
      then Throw (TypeError "Cannot convert object to primitive value")
      else Normal nan
  end.

(** [String(err)] *)
Definition exn_text (err : exn) : completion string :=
  match err with
  | TypeError msg => Normal (error_text "TypeError" msg)
  | Error msg => Normal (error_text "Error" msg)
  | Thrown v => ToString v
  end.

End Coercions.

(** ** The model catalog *)

Module ModelCost.
Record t : Type := { input : float; output : float }.
End ModelCost.

Module Model.
Record t : Type := { id : string; cost : option ModelCost.t }.
End Model.

Definition DATABRICKS_CHAT_MODELS : list Model.t :=
  map (λ model, {| Model.id := model;
                   Model.cost := Some {| ModelCost.input := 0.0008 / 1000;
                                         ModelCost.output := 0.0024 / 1000 |} |})
      ["databricks-dbrx-instruct"]
  ++ map (λ model, {| Model.id := model;
                      Model.cost := Some {| ModelCost.input := 0.0005 / 1000;
                                            ModelCost.output := 0.001 / 1000 |} |})
      ["databricks-mixtral-8x7b-instruct"]
  ++ map (λ model, {| Model.id := model;
                      Model.cost := Some {| ModelCost.input := 0.0009 / 1000;
                                            ModelCost.output := 0.0027 / 1000 |} |})
      ["databricks-meta-llama-3-70b-instruct"].

(** ** Configuration *)

(** [DatabricksCompletionOptions]: the shared options and the callback table.
    The sampling parameters, the function and tool definitions and the
    passthrough object, which only feed the request body, are
    [Generation.t] below. *)
Module Config.
Record t : Type := {
  apiKey : option string;
  apiKeyEnvar : option string;
  apiHost : option string;
  apiBaseUrl : option string;
  cost : option float;
  headers : list (string * string);
  functionToolCallbacks : option (gmap string callback)
}.

(** [{}], what the constructor takes when no config is given. *)
Definition empty : t :=
  {| apiKey := None; apiKeyEnvar := None; apiHost := None; apiBaseUrl := None;
     cost := None; headers := []; functionToolCallbacks := None |}.
End Config.

(** [EnvOverrides] and [process.env]: variables by name. *)
Abbreviation env_map := (gmap string string).

(** ** DatabricksGenericProvider *)

Module Provider.
(** The state of an instance: the three fields and, when the constructor was
    given an id, the function that replaced the [id] method. *)
Record t : Type := {
  modelName : string;
  config : Config.t;
  env : option env_map;
  id_override : option string
}.
End Provider.

Module DatabricksGenericProvider.
Import Provider.

(** [constructor(modelName, { config, id, env } = {})] *)
Definition new (modelName : string) (config : option Config.t)
    (id : option string) (env : option env_map) : Provider.t :=
  {| Provider.modelName := modelName;
     Provider.config := default Config.empty config;
     Provider.env := env;
     Provider.id_override := if str_truthy id then id else None |}.

(** The [id] method of the class. *)
Definition id_method (p : Provider.t) : string :=
  if str_truthy (str_or (Config.apiHost (config p)) (Config.apiBaseUrl (config p)))
  then modelName p
  else "databricks:" +:+ modelName p.

(** [provider.id()]: the constructor's [() => id] when it installed one, else
    the method. *)
Definition id (p : Provider.t) : string :=
  match id_override p with
  | Some given => given
  | None => id_method p
  end.

Definition toString (p : Provider.t) : string :=
  "[Databricks Provider " +:+ modelName p +:+ "]".

Definition getApiUrlDefault : string := "https://cloud.databricks.com/v1".

(** [this.env?.NAME] and [this.env?.[name]] *)
Definition env_var (p : Provider.t) (name : string) : option string :=
  e ← env p; e !! name.

Definition getApiUrl (p : Provider.t) (process_env : env_map) : string :=
  let apiHost :=
    str_or (str_or (Config.apiHost (config p)) (env_var p "DATABRICKS_API_HOST"))
           (process_env !! "DATABRICKS_API_HOST") in
  if str_truthy apiHost then "https://" +:+ str_text apiHost
  else
    str_text
      (str_or (str_or (str_or (str_or (str_or (Config.apiBaseUrl (config p))
                                              (env_var p "DATABRICKS_API_BASE_URL"))
                                      (env_var p "DATABRICKS_BASE_URL"))
                              (process_env !! "DATABRICKS_API_BASE_URL"))
                      (process_env !! "DATABRICKS_BASE_URL"))
              (Some getApiUrlDefault)).

(** [this.env?.[name]], a read by a computed name. *)
Definition env_lookup (p : Provider.t) (name : string) : option (found string) :=
  e ← env p; lookup_by_name e name.

(** The result is typed [string | undefined]; a name that [apiKeyEnvar]
    gives and every object inherits finds the inherited member instead of a
    string. *)
Definition getApiKey (p : Provider.t) (process_env : env_map)
  : option (found string) :=
  found_or
    (found_or
       (found_or (own_text (Config.apiKey (config p)))
                 (match Config.apiKeyEnvar (config p) with
                  | Some name =>
                      if negb (String.eqb name "")
                      then found_or (lookup_by_name process_env name)
                                    (env_lookup p name)
                      else None
                  | None => None
                  end))
       (own_text (env_var p "DATABRICKS_API_KEY")))
    (own_text (process_env !! "DATABRICKS_API_KEY")).

(** [callApi] of the base class. *)
Definition callApi (p : Provider.t) (prompt : string) : completion value :=
  Throw (Error "Not implemented").

End DatabricksGenericProvider.

(** ** Results of an invocation *)

(** [Partial<TokenUsage>]: [None] is a field the object does not have. *)
Module TokenUsage.
Record t : Type := {
  total : option value;
  prompt : option value;
  completion : option value;
  cached : option value
}.
Definition empty : t :=
  {| total := None; prompt := None; completion := None; cached := None |}.
End TokenUsage.

(** [ProviderResponse]. Reading a member the object lacks gives [undefined],
    so [output] and [logProbs] are values and the other fields are [None]
    when unset. *)
Module Response.
Record t : Type := {
  error : option string;
  output : value;
  tokenUsage : option TokenUsage.t;
  cached : option bool;
  logProbs : value;
  cost : option float
}.

(** [{ error: text }] *)
Definition failure (text : string) : t :=
  {| error := Some text; output := VUndefined; tokenUsage := None;
     cached := None; logProbs := VUndefined; cost := None |}.
End Response.

(** ** The cached-fetch collaborator *)

(** What [callApi] hands to [fetchWithCache]: the URL, the headers in the
    order the object literal lists them (a later entry of the same name
    wins), and the text of the body. *)
Module FetchRequest.
Record t : Type := {
  url : string;
  method : string;
  headers : list (string * string);
  body : string
}.
End FetchRequest.

(** What [await fetchWithCache(...)] does: reject, or resolve to
    [{ data, cached }]. *)
Inductive FetchOutcome : Type :=
  | FetchThrows (err : exn)
  | FetchReturns (data : value) (cached : bool).

(** One run of [callApi]: the requests made of the collaborator, in order, and
    how the call completed (the promise resolved to a response, or rejected). *)
Record Invocation : Type := {
  fetches : list FetchRequest.t;
  result : completion Response.t
}.

(** ** Normalisation helpers *)

(** The line feed of ['\n']. *)
Definition LF : string := String (Ascii.ascii_of_nat 10) "".

(** [v.a.b] *)
Definition get2 (v : value) (a b : string) : completion value :=
  inner ← get v a; get inner b.

Definition getTokenUsage (data : value) (cached : bool)
  : completion TokenUsage.t :=
  usage ← get data "usage";
  if is_truthy usage then
    if cached then
      cached_tokens ← get2 data "usage" "total_tokens";
      total_tokens ← get2 data "usage" "total_tokens";
      Normal {| TokenUsage.cached := Some cached_tokens;
                TokenUsage.total := Some total_tokens;
                TokenUsage.prompt := None;
                TokenUsage.completion := None |}
    else
      total_tokens ← get2 data "usage" "total_tokens";
      prompt_tokens ← js_or (get2 data "usage" "prompt_tokens") (Normal (VNum 0));
      completion_tokens ←
        js_or (get2 data "usage" "completion_tokens") (Normal (VNum 0));
      Normal {| TokenUsage.total := Some total_tokens;
                TokenUsage.prompt := Some prompt_tokens;
                TokenUsage.completion := Some completion_tokens;
                TokenUsage.cached := None |}
  else Normal TokenUsage.empty.

(** ** The request body

    The rest of [DatabricksCompletionOptions], which [callApi] reads to
    assemble the body it posts, and the helpers it calls for that. *)

(** The sampling parameters, the function and tool definitions and the
    passthrough object. [best_of] is declared by the type and read nowhere. *)
Module Generation.
Record t : Type := {
  temperature : option float;
  max_tokens : option float;
  top_p : option float;
  frequency_penalty : option float;
  presence_penalty : option float;
  best_of : option float;
  functions : option value;
  function_call : option value;
  tools : option value;
  tool_choice : option value;
  response_format : option value;
  stop : option value;
  passthrough : option (list (string * value))
}.

Definition empty : t :=
  {| temperature := None; max_tokens := None; top_p := None;
     frequency_penalty := None; presence_penalty := None; best_of := None;
     functions := None; function_call := None; tools := None;
     tool_choice := None; response_format := None; stop := None;
     passthrough := None |}.
End Generation.

(** [parseChatPrompt] and [renderVarsInObject] are the repository's helpers
    imported from [./shared] and [../util] (either may throw); [parseInt] and
    [parseFloat] are JavaScript's, applied to a string; [stringify_body] is
    [JSON.stringify] applied to the body, which throws on a member it cannot
    serialise. *)
Class RequestHelpers : Type := {
  parseChatPrompt : string → value → completion value;
  renderVarsInObject : value → value → completion value;
  parseInt : string → float;
  parseFloat : string → float;
  stringify_body : list (string * value) → completion string
}.

(** Defining the member [k] of an object under construction: an existing
    member keeps its place and takes the new value, a new one goes last. The
    list keeps the order of definition; JavaScript enumerates integer-like
    names before the others, which no statement below depends on. *)
Fixpoint define (k : string) (v : value) (fields : list (string * value))
  : list (string * value) :=
  match fields with
  | [] => [(k, v)]
  | (k', v') :: rest =>
      if String.eqb k k' then (k, v) :: rest else (k', v') :: define k v rest
  end.

(** [{ ...target, ...source }] *)
Definition spread (source target : list (string * value)) : list (string * value) :=
  foldl (λ fields member, define member.1 member.2 fields) target source.

(** The names of an object's members, in order. *)
Definition keys (fields : list (string * value)) : list string := fields.*1.

(** [o ? { [name]: o } : {}] for an optional config value. *)
Definition when_truthy (name : string) (o : option value) : list (string * value) :=
  match o with
  | Some v => if is_truthy v then [(name, v)] else []
  | None => []
  end.

(** [{ [name]: r }] for a rendered value, [{}] when there is none. *)
Definition when_some (name : string) (o : option value) : list (string * value) :=
  match o with
  | Some v => [(name, v)]
  | None => []
  end.

(** [process.env[name] || literal] *)
Definition env_or (process_env : env_map) (name literal : string) : string :=
  str_text (str_or (process_env !! name) (Some literal)).

Section RequestBody.
Context {helpers : RequestHelpers}.

(** [o ? renderVarsInObject(o, context?.vars) : nothing] *)
Definition render_optional (o : option value) (vars : value)
  : completion (option value) :=
  match o with
  | Some v =>
      if is_truthy v
      then rendered ← renderVarsInObject v vars; Normal (Some rendered)
      else Normal None
  | None => Normal None
  end.

(** The object literal of [callApi], once [messages] is parsed and the
    function and tool definitions are rendered. *)
Definition assemble_body (modelName : string) (options : Generation.t)
    (process_env : env_map) (messages : value) (functions tools : option value)
    (includeLogProbs : option bool) : list (string * value) :=
  let literal :=
    [("model", VStr modelName);
     ("messages", messages);
     ("max_tokens",
      VNum (default (parseInt (env_or process_env "DATABRICKS_MAX_TOKENS" "1024"))
                    (Generation.max_tokens options)));
     ("temperature",
      VNum (default (parseFloat (env_or process_env "DATABRICKS_TEMPERATURE" "0"))
                    (Generation.temperature options)));
     ("top_p",
      VNum (default (parseFloat (env_or process_env "DATABRICKS_TOP_P" "1"))
                    (Generation.top_p options)));
     ("presence_penalty",
      VNum (default (parseFloat (env_or process_env "DATABRICKS_PRESENCE_PENALTY" "0"))
                    (Generation.presence_penalty options)));
     ("frequency_penalty",
      VNum (default (parseFloat (env_or process_env "DATABRICKS_FREQUENCY_PENALTY" "0"))
                    (Generation.frequency_penalty options)))] in
  spread (default [] (Generation.passthrough options))
    (spread (when_truthy "stop" (Generation.stop options))
       (spread (match includeLogProbs with
                | Some true => [("logprobs", VBool true)]
                | _ => []
                end)
          (spread (when_truthy "response_format" (Generation.response_format options))
             (spread (when_truthy "tool_choice" (Generation.tool_choice options))
                (spread (when_some "tools" tools)
                   (spread (when_truthy "function_call" (Generation.function_call options))
                      (spread (when_some "functions" functions) literal))))))).

(** The body [callApi] posts for [prompt]: [vars] is [context?.vars],
    [includeLogProbs] is [callApiOptions?.includeLogProbs]. *)
Definition build_body (p : Provider.t) (options : Generation.t)
    (process_env : env_map) (prompt : string) (vars : value)
    (includeLogProbs : option bool) : completion (list (string * value)) :=
  messages ← parseChatPrompt prompt
               (VArr [VObj [("role", VStr "user"); ("content", VStr prompt)]]);
  functions ← render_optional (Generation.functions options) vars;
  tools ← render_optional (Generation.tools options) vars;
  Normal (assemble_body (Provider.modelName p) options process_env messages
            functions tools includeLogProbs).

End RequestBody.

(** The member names the object literal of the body can write. *)
Definition body_names : list string :=
  ["model"; "messages"; "max_tokens"; "temperature"; "top_p"; "presence_penalty";
   "frequency_penalty"; "functions"; "function_call"; "tools"; "tool_choice";
   "response_format"; "logprobs"; "stop"].


(** ** Error text and cost *)

Section Adapter.
Context {js : Builtins}.

Definition formatDatabricksError (data : value) : completion string :=
  message ← get2 data "error" "message";
  message_text ← ToString message;
  let errorMessage := "API error: " +:+ message_text in
  type_present ← get2 data "error" "type";
  errorMessage ←
    (if is_truthy type_present
     then type ← get2 data "error" "type";
          type_text ← ToString type;
          Normal (errorMessage +:+ ", Type: " +:+ type_text)
     else Normal errorMessage);
  code_present ← get2 data "error" "code";
  errorMessage ←
    (if is_truthy code_present
     then code ← get2 data "error" "code";
          code_text ← ToString code;
          Normal (errorMessage +:+ ", Code: " +:+ code_text)
     else Normal errorMessage);
  Normal (errorMessage +:+ LF +:+ LF +:+ safeJsonStringify data true).

(** [calculateCost] over a given catalog; the source reads the module-level
    [DATABRICKS_CHAT_MODELS]. The multiplications convert the two counts to
    numbers, the prompt count first. *)
Definition calculateCostFrom (catalog : list Model.t) (modelName : string)
    (config : Config.t) (promptTokens completionTokens : value)
  : completion (option float) :=
  if negb (is_truthy promptTokens) || negb (is_truthy completionTokens)
  then Normal None
  else
    match find (λ m, String.eqb (Model.id m) modelName) catalog with
    | None => Normal None
    | Some model =>
        match Model.cost model with
        | None => Normal None
        | Some rates =>
            let inputCost := default (ModelCost.input rates) (Config.cost config) in
            let outputCost := default (ModelCost.output rates) (Config.cost config) in
            prompt ← ToNumber promptTokens;
            completion ← ToNumber completionTokens;
            Normal (number_or_undefined
                      (inputCost * prompt + outputCost * completion)%float)
        end
    end.

Definition calculateCost
  : string → Config.t → value → value → completion (option float) :=
  calculateCostFrom DATABRICKS_CHAT_MODELS.

End Adapter.

(** ** DatabricksChatCompletionProvider *)

(** The arguments of one call: the prompt, [context?.vars] and
    [callApiOptions?.includeLogProbs]. *)
Module Call.
Record t : Type := {
  prompt : string;
  vars : value;
  includeLogProbs : option bool
}.
End Call.

Module DatabricksChatCompletionProvider.
Import Provider.

(** The constructor adds nothing to the base state (it only logs an unknown
    model name). *)
Definition new := DatabricksGenericProvider.new.

Section CallApi.
Context {js : Builtins} {helpers : RequestHelpers}.

(** [data.choices[0].message] *)
Definition first_message (data : value) : completion value :=
  choices ← get data "choices";
  choice ← get_first choices;
  get choice "message".

(** The [if / else if / else] that assigns [output]. *)
Definition select_output (message : value) : completion value :=
  both ← js_and (get message "content")
                (js_or (get message "function_call") (get message "tool_calls"));
  if is_truthy both then Normal message
  else
    content ← get message "content";
    match content with
    | VNull => js_or (get message "function_call") (get message "tool_calls")
    | _ => get message "content"
    end.

(** [items.map((logProbObj) => logProbObj.logprob)] *)
Fixpoint map_logprob (items : list value) : completion (list value) :=
  match items with
  | [] => Normal []
  | logProbObj :: rest =>
      logprob ← get logProbObj "logprob";
      others ← map_logprob rest;
      Normal (logprob :: others)
  end.

(** [data.choices[0].logprobs?.content?.map(...)]; only an array has a [map]
    that can be called. *)
Definition extract_logProbs (data : value) : completion value :=
  choices ← get data "choices";
  choice ← get_first choices;
  logprobs ← get choice "logprobs";
  if is_nullish logprobs then Normal VUndefined
  else
    let content := member logprobs "content" in
    if is_nullish content then Normal VUndefined
    else
      match content with
      | VArr items => logProbs ← map_logprob items; Normal (VArr logProbs)
      | _ => Throw (TypeError
                      "data.choices[0].logprobs?.content?.map is not a function")
      end.

(** [await table[functionName](message.function_call.arguments)] for the
    member the table holds under that name: a callback of the config, whose
    string is the result, or a member the table inherits. The argument is
    evaluated before the call. *)
Definition call_member (callbacks : gmap string callback) (message : value)
    (registered : found callback) : completion value :=
  arguments ← get2 message "function_call" "arguments";
  match registered with
  | Own function => text ← function arguments; Normal (VStr text)
  | Inherited name => call_inherited name callbacks arguments
  end.

(** The body of the [for ... of] loop over the carried calls: [Some result]
    when a member of the table was called and the function returned from
    inside the loop, [None] when the loop ran to its end. The table is read
    under the name [String(functionName)]. *)
Fixpoint run_callbacks (callbacks : gmap string callback) (message : value)
    (functionCalls : list value) : completion (option value) :=
  match functionCalls with
  | [] => Normal None
  | functionCall :: rest =>
      functionName ← get functionCall "name";
      key ← ToString functionName;
      match lookup_by_name callbacks key with
      | Some registered =>
          functionResult ← call_member callbacks message registered;
          Normal (Some functionResult)
      | None => run_callbacks callbacks message rest
      end
  end.

(** [message.function_call ? [message.function_call] : message.tool_calls] *)
Definition carried_calls (message : value) : completion value :=
  function_call ← get message "function_call";
  if is_truthy function_call
  then function_call ← get message "function_call"; Normal (VArr [function_call])
  else get message "tool_calls".

(** [calculateCost(this.modelName, this.config, data.usage?.prompt_tokens,
    data.usage?.completion_tokens)] *)
Definition response_cost (p : Provider.t) (data : value)
  : completion (option float) :=
  usage ← get data "usage";
  let promptTokens := get_optional usage "prompt_tokens" in
  usage ← get data "usage";
  let completionTokens := get_optional usage "completion_tokens" in
  calculateCost (modelName p) (config p) promptTokens completionTokens.

(** The [try] block that reads a body without an [error] member. *)
Definition read_success (p : Provider.t) (data : value) (cached : bool)
  : completion Response.t :=
  message ← first_message data;
  output ← select_output message;
  logProbs ← extract_logProbs data;
  functionCalls ← carried_calls message;
  called ←
    match (if is_truthy functionCalls
           then Config.functionToolCallbacks (config p) else None) with
    | Some callbacks =>
        calls ← iterate "functionCalls" functionCalls;
        run_callbacks callbacks message calls
    | None => Normal None
    end;
  match called with
  | Some functionResult =>
      tokenUsage ← getTokenUsage data cached;
      cost ← response_cost p data;
      Normal {| Response.error := None;
                Response.output := functionResult;
                Response.tokenUsage := Some tokenUsage;
                Response.cached := Some cached;
                Response.logProbs := logProbs;
                Response.cost := cost |}
  | None =>
      tokenUsage ← getTokenUsage data cached;
      cost ← response_cost p data;
      Normal {| Response.error := None;
                Response.output := output;
                Response.tokenUsage := Some tokenUsage;
                Response.cached := Some cached;
                Response.logProbs := logProbs;
                Response.cost := cost |}
  end.

(** What follows the fetch: the [data.error] test, whose error text is built
    outside the [try]; then the [try] block and its [catch], whose text is
    built inside the handler. *)
Definition read_response (p : Provider.t) (data : value) (cached : bool)
  : completion Response.t :=
  error ← get data "error";
  if is_truthy error then
    text ← formatDatabricksError data;
    Normal (Response.failure text)
  else
    try_catch (read_success p data cached)
      (λ err,
         text ← exn_text err;
         Normal (Response.failure
                   ("API error: " +:+ text +:+ ": " +:+ JSON_stringify data))).

Definition missing_key_message : string :=
  "Databricks API key is not set. Set the DATABRICKS_API_KEY environment variable or add `apiKey` to the provider config.".

(** What [callApi] does between the key check and the fetch: it parses the
    prompt, assembles the body and prints it for the log. [options] are the
    members of [this.config] that the body reads. *)
Definition prepare_body (p : Provider.t) (options : Generation.t)
    (process_env : env_map) (call : Call.t) : completion string :=
  body ← build_body p options process_env (Call.prompt call) (Call.vars call)
           (Call.includeLogProbs call);
  stringify_body body.

(** The request [callApi] makes for a body. *)
Definition build_request (p : Provider.t) (process_env : env_map) (body : string)
  : FetchRequest.t :=
  {| FetchRequest.url :=
       DatabricksGenericProvider.getApiUrl p process_env +:+ "/chat/completions";
     FetchRequest.method := "POST";
     FetchRequest.headers :=
       [("Content-Type", "application/json");
        ("Authorization",
         "Bearer "
         +:+ found_text (DatabricksGenericProvider.getApiKey p process_env))]
       ++ Config.headers (config p);
     FetchRequest.body := body |}.

Definition callApi (p : Provider.t) (options : Generation.t)
    (process_env : env_map) (fetchWithCache : FetchRequest.t → FetchOutcome)
    (call : Call.t) : Invocation :=
  if negb (found_truthy (DatabricksGenericProvider.getApiKey p process_env)) then
    {| fetches := []; result := Throw (Error missing_key_message) |}
  else
    match prepare_body p options process_env call with
    | Throw err => {| fetches := []; result := Throw err |}
    | Normal body =>
        let request := build_request p process_env body in
        match fetchWithCache request with
        | FetchThrows err =>
            {| fetches := [request];
               result :=
                 text ← exn_text err;
                 Normal (Response.failure ("API call error: " +:+ text)) |}
        | FetchReturns data cached =>
            {| fetches := [request]; result := read_response p data cached |}
        end
    end.

End CallApi.
End DatabricksChatCompletionProvider.

(** The three exported instances. The JSON one differs by the
    [response_format] of its options. *)
Definition DefaultGradingProvider : Provider.t :=
  DatabricksChatCompletionProvider.new "databricks-dbrx-instruct" None None None.
Definition DefaultGradingJsonProvider : Provider.t :=
  DatabricksChatCompletionProvider.new "databricks-dbrx-instruct"
    (Some Config.empty) None None.
Definition DefaultGradingJsonOptions : Generation.t :=
  {| Generation.temperature := None; Generation.max_tokens := None;
     Generation.top_p := None; Generation.frequency_penalty := None;
     Generation.presence_penalty := None; Generation.best_of := None;
     Generation.functions := None; Generation.function_call := None;
     Generation.tools := None; Generation.tool_choice := None;
     Generation.response_format := Some (VObj [("type", VStr "json_object")]);
     Generation.stop := None; Generation.passthrough := None |}.
Definition DefaultSuggestionsProvider : Provider.t :=
  DatabricksChatCompletionProvider.new "databricks-dbrx-instruct" None None None.

(** ** Vocabulary of the statements *)

(** [part] occurs in [text]. *)
Definition contains (text part : string) : Prop :=
  ∃ before after, text = before +:+ part +:+ after.

(** [text] begins with [prefix]. *)
Definition starts_with (text prefix : string) : Prop :=
  ∃ rest, text = prefix +:+ rest.

(** The first non-empty string of a list of sources, in order. *)
Fixpoint first_set (sources : list (option string)) : option string :=
  match sources with
  | [] => None
  | Some s :: rest => if String.eqb s "" then first_set rest else Some s
  | None :: rest => first_set rest
  end.

(** The first truthy one of a list of values read from objects of strings. *)
Fixpoint first_found (sources : list (option (found string)))
  : option (found string) :=
  match sources with
  | [] => None
  | a :: rest => if found_truthy a then a else first_found rest
  end.

(** The variable a config names by [apiKeyEnvar], read from [vars]; nothing
    when no non-empty name is given. *)
Definition named_key (name : option string)
    (vars : string → option (found string)) : option (found string) :=
  match name with
  | Some n => if String.eqb n "" then None else vars n
  | None => None
  end.

(** A token count with the default the fresh-call branch applies. *)
Definition or_zero (v : value) : value := if is_truthy v then v else VNum 0.

(** The value a header has in the object the request is built from: of
    several entries with one name, the last. *)
Fixpoint header (name : string) (headers : list (string * string)) : option string :=
  match headers with
  | [] => None
  | (name', v) :: rest =>
      match header name rest with
      | Some later => Some later
      | None => if String.eqb name name' then Some v else None
      end
  end.

(** No member of the callback table applies to the calls a message carries:
    there is no table, or the message carries no call, or the carried calls
    can be iterated and each has a name that converts to a key under which
    the table holds nothing, neither a callback nor an inherited member. *)
Definition no_callback_applies {js : Builtins} (p : Provider.t) (message : value)
  : Prop :=
  let function_call := member message "function_call" in
  let functionCalls :=
    if is_truthy function_call then VArr [function_call]
    else member message "tool_calls" in
  Config.functionToolCallbacks (Provider.config p) = None
  ∨ is_truthy functionCalls = false
  ∨ ∃ callbacks calls,
      Config.functionToolCallbacks (Provider.config p) = Some callbacks
      ∧ iterate "functionCalls" functionCalls = Normal calls
      ∧ Forall (λ functionCall,
                  is_nullish functionCall = false
                  ∧ ∃ key,
                      ToString (member functionCall "name") = Normal key
                      ∧ lookup_by_name callbacks key = None)
               calls.

(** ** Sample data for the closed examples *)

(** Stand-ins for the built-ins, used where an example must be closed. The
    theorems are stated for every choice of built-ins. *)
Definition example_builtins : Builtins :=
  {| Number_toString := λ _, "0";
     StringToNumber := λ _, nan;
     JSON_stringify := λ _, "{}";
     safeJsonStringify := λ _ _, "{}";
     call_inherited := λ _ _ _, Normal (VStr "[object Object]") |}.

(** Stand-ins for the request helpers: the prompt is a single user message,
    templates render to themselves, every number parses to [7] and every
    body prints as ["{}"]. *)
Definition example_helpers : RequestHelpers :=
  {| parseChatPrompt := λ _ messages, Normal messages;
     renderVarsInObject := λ v _, Normal v;
     parseInt := λ _, 7%float;
     parseFloat := λ _, 7%float;
     stringify_body := λ _, Normal "{}" |}.

(** Helpers whose prompt parser rejects every prompt. *)
Definition rejecting_helpers : RequestHelpers :=
  {| parseChatPrompt := λ _ _, Throw (Error "Chat Completion prompt is not a valid JSON string");
     renderVarsInObject := λ v _, Normal v;
     parseInt := λ _, 7%float;
     parseFloat := λ _, 7%float;
     stringify_body := λ _, Normal "{}" |}.

(** The call [callApi("hi")]. *)
Definition example_call : Call.t :=
  {| Call.prompt := "hi"; Call.vars := VUndefined; Call.includeLogProbs := None |}.

(** A body with the usage object of the specification's example. *)
Definition example_usage_body : value :=
  VObj [("usage", VObj [("total_tokens", VNum 30); ("prompt_tokens", VNum 10);
                        ("completion_tokens", VNum 20)])].

(** A config that holds an API key and, optionally, a callback table. *)
Definition keyed_config (callbacks : option (gmap string callback)) : Config.t :=
  {| Config.apiKey := Some "dapi-example"; Config.apiKeyEnvar := None;
     Config.apiHost := None; Config.apiBaseUrl := None; Config.cost := None;
     Config.headers := []; Config.functionToolCallbacks := callbacks |}.

Definition keyed_provider (callbacks : option (gmap string callback))
  : Provider.t :=
  DatabricksChatCompletionProvider.new "databricks-dbrx-instruct"
    (Some (keyed_config callbacks)) None None.

(** A config that names the variable its key is read from. *)
Definition envar_config (name : string) : Config.t :=
  {| Config.apiKey := None; Config.apiKeyEnvar := Some name;
     Config.apiHost := None; Config.apiBaseUrl := None; Config.cost := None;
     Config.headers := []; Config.functionToolCallbacks := None |}.

Definition envar_provider (name : string) : Provider.t :=
  DatabricksChatCompletionProvider.new "databricks-dbrx-instruct"
    (Some (envar_config name)) None None.

(** [{ choices: [{ message }] }] *)
Definition chat_body (message : value) : value :=
  VObj [("choices", VArr [VObj [("message", message)]])].

(** [{ error: { message: "bad request", type: "invalid_request" } }] *)
Definition bad_request_body : value :=
  VObj [("error", VObj [("message", VStr "bad request");
                        ("type", VStr "invalid_request")])].


(** A collaborator that answers every request with the same body, fresh. *)
Definition answering (data : value) : FetchRequest.t → FetchOutcome :=
  λ _, FetchReturns data false.

(** [{ name: "f", arguments: "{}" }] and three messages that carry it. *)
Definition call_f : value := VObj [("name", VStr "f"); ("arguments", VStr "{}")].
Definition text_and_tools_message : value :=
  VObj [("content", VStr "hi"); ("tool_calls", VArr [call_f])].
Definition empty_text_message : value :=
  VObj [("content", VStr ""); ("function_call", call_f)].

(** [{ content: null, tool_calls: [{ name: "lookup", arguments: "{}" }] }] *)
Definition lookup_tool_message : value :=
  VObj [("content", VNull);
        ("tool_calls", VArr [VObj [("name", VStr "lookup");
                                   ("arguments", VStr "{}")]])].

(** [{ content: null, function_call: { name: "lookup", arguments: "{}" } }] *)
Definition lookup_call_message : value :=
  VObj [("content", VNull);
        ("function_call", VObj [("name", VStr "lookup"); ("arguments", VStr "{}")])].

(** A callback table that answers ["42"] for the function [name]. *)
Definition answer_42 (name : string) : gmap string callback :=
  {[ name := λ _, Normal "42" ]}.

(** A callback that rejects. *)
Definition rejecting (name : string) : gmap string callback :=
  {[ name := λ _, Throw (Error "lookup failed") ]}.

(** A config whose [cost] overrides both rates. *)
Definition flat_rate_config (rate : float) : Config.t :=
  {| Config.apiKey := Some "dapi-example"; Config.apiKeyEnvar := None;
     Config.apiHost := None; Config.apiBaseUrl := None; Config.cost := Some rate;
     Config.headers := []; Config.functionToolCallbacks := None |}.

(** Options with a temperature of [0] and a passthrough that sets
    [max_tokens] and a field of its own. *)
Definition example_options : Generation.t :=
  {| Generation.temperature := Some 0%float; Generation.max_tokens := Some 256%float;
     Generation.top_p := None; Generation.frequency_penalty := None;
     Generation.presence_penalty := None; Generation.best_of := Some 3%float;
     Generation.functions := None; Generation.function_call := None;
     Generation.tools := None; Generation.tool_choice := None;
     Generation.response_format := None; Generation.stop := None;
     Generation.passthrough :=
       Some [("max_tokens", VNum 99); ("seed", VNum 1)] |}.

(** A choice with log-probabilities for a plain text answer, and a body that
    holds it together with a usage object. *)
Definition priced_choice : value :=
  VObj [("message", VObj [("content", VStr "hi")]);
        ("logprobs",
         VObj [("content",
                VArr [VObj [("token", VStr "h"); ("logprob", VNum (-1))];
                      VObj [("token", VStr "i"); ("logprob", VNum (-2))]])])].
Definition priced_body : value :=
  VObj [("choices", VArr [priced_choice]);
        ("usage", VObj [("total_tokens", VNum 30); ("prompt_tokens", VNum 10);
                        ("completion_tokens", VNum 20)])].

(** A message whose [function_call] is named ["g"] and whose tool call is
    named ["f"]. *)
Definition shadowing_message : value :=
  VObj [("content", VNull);
        ("function_call", VObj [("name", VStr "g"); ("arguments", VStr "{}")]);
        ("tool_calls", VArr [call_f])].

(** A provider that holds a key and finds its host in the override map. *)
Definition env_host_provider : Provider.t :=
  DatabricksGenericProvider.new "dbrx" (Some (keyed_config None)) None
    (Some {[ "DATABRICKS_API_HOST" := "h.example" ]}).

(** A choice whose [logprobs.content] is a string. *)
Definition unmappable_choice : value :=
  VObj [("message", VObj [("content", VStr "hi")]);
        ("logprobs", VObj [("content", VStr "n/a")])].

(** * Properties *)

(** ** Truthiness of configuration strings *)

Lemma str_truthy_spec (o : option string) :
  str_truthy o = true ↔ ∃ s, o = Some s ∧ s ≠ "".
Proof.
  destruct o as [s|]; simpl.
  - destruct (String.eqb_spec s ""); simpl; split.
    + discriminate.
    + intros (s' & [= <-] & Hs). contradiction.
    + eauto.
    + reflexivity.
  - split; [discriminate | intros (s & [=] & _)].
Qed.

Lemma str_or_l (a b : option string) : str_truthy a = true → str_or a b = a.
Proof. unfold str_or. now intros ->. Qed.

Lemma str_or_r (a b : option string) : str_truthy a = false → str_or a b = b.
Proof. unfold str_or. now intros ->. Qed.

Lemma str_truthy_or (a b : option string) :
  str_truthy (str_or a b) = str_truthy a || str_truthy b.
Proof. unfold str_or. destruct (str_truthy a) eqn:Ha; simpl; [exact Ha | reflexivity]. Qed.

Lemma first_set_cons (a : option string) (rest : list (option string)) :
  first_set (a :: rest) = if str_truthy a then a else first_set rest.
Proof. destruct a as [s|]; simpl; [destruct (String.eqb s "") |]; reflexivity. Qed.

(** A left-nested chain of [||] picks the first non-empty source: [first_set]
    of the sources met so far, then of the rest. *)
Lemma first_set_snoc (acc : option string) (sources : list (option string)) :
  first_set (acc :: sources) =
  first_set [foldl str_or acc sources].
Proof.
  revert acc. induction sources as [|b rest IH]; intros acc.
  - reflexivity.
  - cbn [foldl]. rewrite <- IH, !first_set_cons.
    unfold str_or. destruct (str_truthy acc) eqn:Hacc; cbn; rewrite ?Hacc; reflexivity.
Qed.

(** ** C7: identity *)

(** C7, as stated, fails: an instance constructed with an explicit id and no
    host or base-URL override does not answer the namespaced id but the id
    it was given. *)
Lemma C7_counterexample :
  let p := DatabricksGenericProvider.new "dbrx" None (Some "my-endpoint") None in
  Config.apiHost (Provider.config p) = None
  ∧ Config.apiBaseUrl (Provider.config p) = None
  ∧ DatabricksGenericProvider.id p = "my-endpoint"
  ∧ DatabricksGenericProvider.id p ≠ "databricks:" +:+ Provider.modelName p.
Proof. cbv zeta. repeat split; discriminate. Qed.

(** C7, amended: for every instance, [id()] is the id given to the
    constructor when that is a non-empty string; otherwise it is the bare
    model name when the config holds a non-empty [apiHost] or [apiBaseUrl],
    and ["databricks:" + modelName] when it holds neither. *)
Theorem C7_id_amended (modelName : string) (config : option Config.t)
    (id : option string) (env : option env_map) :
  let p := DatabricksGenericProvider.new modelName config id env in
  let cfg := default Config.empty config in
  DatabricksGenericProvider.id p =
    if str_truthy id then str_text id
    else if str_truthy (Config.apiHost cfg) || str_truthy (Config.apiBaseUrl cfg)
         then modelName
         else "databricks:" +:+ modelName.
Proof.
  intros p cfg. subst p cfg.
  unfold DatabricksGenericProvider.id, DatabricksGenericProvider.new. cbn.
  destruct (str_truthy id) eqn:Hid.
  - destruct id; [reflexivity | discriminate].
  - unfold DatabricksGenericProvider.id_method. cbn.
    now rewrite str_truthy_or.
Qed.

(** ** C6: base-URL resolution *)

(** C6, as stated, fails: with a per-instance base URL and a host in the
    override map (and no per-instance host), step (b) of the claimed order
    would answer the base URL, but the host of the override map wins. *)
Lemma C6_counterexample :
  let config :=
    {| Config.apiKey := None; Config.apiKeyEnvar := None; Config.apiHost := None;
       Config.apiBaseUrl := Some "https://b.example/v1"; Config.cost := None;
       Config.headers := []; Config.functionToolCallbacks := None |} in
  let env : env_map := {[ "DATABRICKS_API_HOST" := "h.example" ]} in
  let p := DatabricksGenericProvider.new "dbrx" (Some config) None (Some env) in
  Config.apiHost (Provider.config p) = None
  ∧ Config.apiBaseUrl (Provider.config p) = Some "https://b.example/v1"
  ∧ DatabricksGenericProvider.getApiUrl p ∅ = "https://h.example"
  ∧ DatabricksGenericProvider.getApiUrl p ∅ ≠ "https://b.example/v1".
Proof.
  cbv zeta. split; [reflexivity|]. split; [reflexivity|].
  split; [vm_compute; reflexivity|].
  intros Hurl. vm_compute in Hurl. discriminate Hurl.
Qed.

(** C6, amended: the URL is [https://{host}] for the first non-empty host
    among the config's [apiHost], the override map's and the process
    environment's [DATABRICKS_API_HOST]; failing those it is the first
    non-empty of the config's [apiBaseUrl], the override map's
    [DATABRICKS_API_BASE_URL] and [DATABRICKS_BASE_URL] and the process
    environment's [DATABRICKS_API_BASE_URL] and [DATABRICKS_BASE_URL];
    failing those, the default endpoint. Every host source thus comes before
    every base-URL source. *)
Theorem C6_getApiUrl_amended (p : Provider.t) (process_env : env_map) :
  DatabricksGenericProvider.getApiUrl p process_env =
    match first_set [Config.apiHost (Provider.config p);
                     DatabricksGenericProvider.env_var p "DATABRICKS_API_HOST";
                     process_env !! "DATABRICKS_API_HOST"] with
    | Some host => "https://" +:+ host
    | None =>
        default "https://cloud.databricks.com/v1"
          (first_set [Config.apiBaseUrl (Provider.config p);
                      DatabricksGenericProvider.env_var p "DATABRICKS_API_BASE_URL";
                      DatabricksGenericProvider.env_var p "DATABRICKS_BASE_URL";
                      process_env !! "DATABRICKS_API_BASE_URL";
                      process_env !! "DATABRICKS_BASE_URL"])
    end.
Proof.
  unfold DatabricksGenericProvider.getApiUrl.
  rewrite (first_set_snoc (Config.apiHost _)), (first_set_snoc (Config.apiBaseUrl _)).
  cbn [foldl]. rewrite !first_set_cons. cbn [first_set].
  destruct (str_truthy (str_or (str_or _ _) (process_env !! "DATABRICKS_API_HOST")))
    eqn:Hhost.
  - apply str_truthy_spec in Hhost as (host & -> & _). reflexivity.
  - match goal with |- str_text (str_or ?chain _) = _ => generalize chain end.
    intros found. unfold str_or at 1.
    destruct (str_truthy found) eqn:Hfound; [|reflexivity].
    apply str_truthy_spec in Hfound as (url & -> & _). reflexivity.
Qed.

(** ** Reads by a computed name *)


Lemma found_text_own (o : option string) : found_text (own_text o) = str_text o.
Proof. now destruct o. Qed.

Lemma found_or_l (a b : option (found string)) :
  found_truthy a = true → found_or a b = a.
Proof. unfold found_or. now intros ->. Qed.

Lemma found_or_r (a b : option (found string)) :
  found_truthy a = false → found_or a b = b.
Proof. unfold found_or. now intros ->. Qed.


(** A read by name finds nothing truthy exactly when the object holds the
    empty string under the name, or holds nothing and inherits nothing. *)
Lemma lookup_by_name_falsy (table : gmap string string) (name : string) :
  found_truthy (lookup_by_name table name) = false ↔
  table !! name = Some "" ∨ (table !! name = None ∧ inherited name = false).
Proof.
  unfold lookup_by_name. destruct (table !! name) as [s|].
  - cbn. destruct (String.eqb_spec s "") as [->|Hs]; cbn; split.
    + auto.
    + reflexivity.
    + discriminate.
    + intros [[= ->] | [[=] _]]. contradiction.
  - destruct (inherited name); cbn [found_truthy]; split.
    + discriminate.
    + intros [[=] | [_ [=]]].
    + auto.
    + reflexivity.
Qed.

(** A name no object inherits is read as a plain lookup. *)
Lemma lookup_by_name_plain (table : gmap string string) (name : string) :
  inherited name = false → lookup_by_name table name = own_text (table !! name).
Proof. unfold lookup_by_name. intros ->. now destruct (table !! name). Qed.

Lemma first_found_cons (a : option (found string))
    (rest : list (option (found string))) :
  first_found (a :: rest) = if found_truthy a then a else first_found rest.
Proof. reflexivity. Qed.

Lemma first_found_snoc (acc : option (found string))
    (sources : list (option (found string))) :
  first_found (acc :: sources) = first_found [foldl found_or acc sources].
Proof.
  revert acc. induction sources as [|b rest IH]; intros acc.
  - reflexivity.
  - cbn [foldl]. rewrite <- IH, !first_found_cons.
    unfold found_or. destruct (found_truthy acc) eqn:Hacc; cbn; rewrite ?Hacc; reflexivity.
Qed.

Lemma first_found_merge (a b : option (found string))
    (rest : list (option (found string))) :
  first_found (found_or a b :: rest) = first_found (a :: b :: rest).
Proof.
  rewrite !first_found_cons. unfold found_or.
  destruct (found_truthy a) eqn:Ha; cbn; rewrite ?Ha; reflexivity.
Qed.

(** ** C2: a missing API key *)


Section MissingKey.
Context {js : Builtins} {helpers : RequestHelpers}.


End MissingKey.


(** The default grading provider in an empty environment has no key. *)
Example default_provider_has_no_key :
  DatabricksChatCompletionProvider.callApi
    (js := example_builtins) (helpers := example_helpers)
    DefaultGradingProvider Generation.empty ∅ (answering VNull) example_call
  = {| fetches := [];
       result := Throw (Error DatabricksChatCompletionProvider.missing_key_message) |}.
Proof. vm_compute. reflexivity. Qed.

(** A config that names [toString] as its variable finds the function every
    object inherits under that name: a key resolves, and the request is made
    with the text of that function as its bearer token. *)
Example inherited_member_is_a_key :
  DatabricksGenericProvider.getApiKey (envar_provider "toString") ∅
  = Some (Inherited "toString")
  ∧ fetches (DatabricksChatCompletionProvider.callApi
               (js := example_builtins) (helpers := example_helpers)
               (envar_provider "toString") Generation.empty ∅
               (answering (chat_body (VObj [("content", VStr "hi")]))) example_call)
    = [{| FetchRequest.url := "https://cloud.databricks.com/v1/chat/completions";
          FetchRequest.method := "POST";
          FetchRequest.headers :=
            [("Content-Type", "application/json");
             ("Authorization", "Bearer function toString() { [native code] }")];
          FetchRequest.body := "{}" |}].
Proof. split; vm_compute; reflexivity. Qed.

(** ** Resolution of the key and of the URL *)

Lemma first_set_merge (a b : option string) (rest : list (option string)) :
  first_set (str_or a b :: rest) = first_set (a :: b :: rest).
Proof.
  rewrite !first_set_cons. unfold str_or.
  destruct (str_truthy a) eqn:Ha; cbn; rewrite ?Ha; reflexivity.
Qed.

Lemma str_or_chain (a b c d : option string) :
  first_set [str_or (str_or (str_or a b) c) d] = first_set [a; b; c; d].
Proof. exact (eq_sym (first_set_snoc a [b; c; d])). Qed.

Lemma first_set_single (a : option string) :
  first_set [a] = if str_truthy a then a else None.
Proof. apply first_set_cons. Qed.

Lemma found_or_chain (a b c d : option (found string)) :
  first_found [found_or (found_or (found_or a b) c) d] = first_found [a; b; c; d].
Proof. exact (eq_sym (first_found_snoc a [b; c; d])). Qed.

(** X1. The key is the first truthy value among: the config's [apiKey]; the
    member named by [apiKeyEnvar] of the process environment, then of the
    override map; [DATABRICKS_API_KEY] of the override map, then of the
    process environment. (For the named member the process environment
    comes first, for the default one the override map does.) A string is
    truthy when it is not empty; the named member is read by a computed
    name, so it is the variable of that name when one is set, and otherwise
    the member every object inherits under that name, if there is one. When
    no source is truthy the result is falsy. *)
Theorem getApiKey_precedence (p : Provider.t) (process_env : env_map) :
  (if found_truthy (DatabricksGenericProvider.getApiKey p process_env)
   then DatabricksGenericProvider.getApiKey p process_env else None)
  = first_found
      [own_text (Config.apiKey (Provider.config p));
       named_key (Config.apiKeyEnvar (Provider.config p))
         (lookup_by_name process_env);
       named_key (Config.apiKeyEnvar (Provider.config p))
         (DatabricksGenericProvider.env_lookup p);
       own_text (DatabricksGenericProvider.env_var p "DATABRICKS_API_KEY");
       own_text (process_env !! "DATABRICKS_API_KEY")].
Proof.
  change (if found_truthy ?a then ?a else None) with (first_found [a]).
  unfold DatabricksGenericProvider.getApiKey.
  rewrite found_or_chain. unfold named_key.
  rewrite !(first_found_cons (own_text (Config.apiKey _))).
  destruct (Config.apiKeyEnvar (Provider.config p)) as [name|]; [|reflexivity].
  destruct (String.eqb name ""); cbn [negb]; [reflexivity|].
  now rewrite first_found_merge.
Qed.

(** X2. The base URL is never the empty string, whatever the config and the
    two environments hold. *)
Theorem getApiUrl_nonempty (p : Provider.t) (process_env : env_map) :
  DatabricksGenericProvider.getApiUrl p process_env ≠ "".
Proof.
  unfold DatabricksGenericProvider.getApiUrl.
  destruct (str_truthy (str_or (str_or _ _) _)); [discriminate|].
  match goal with |- str_text (str_or ?chain _) ≠ _ => generalize chain end.
  intros found. unfold str_or.
  destruct (str_truthy found) eqn:Hfound; [|discriminate].
  apply str_truthy_spec in Hfound as (url & -> & Hurl). exact Hurl.
Qed.

(** X3. A host found only in the environment (the override map or the process
    environment) moves the requests to [https://{host}] but leaves the id
    namespaced: the id looks at the config alone. *)
Theorem env_host_moves_url_not_id (modelName : string) (config : option Config.t)
    (env : option env_map) (process_env : env_map) (host : string) :
  let p := DatabricksGenericProvider.new modelName config None env in
  Config.apiHost (Provider.config p) = None →
  Config.apiBaseUrl (Provider.config p) = None →
  first_set [DatabricksGenericProvider.env_var p "DATABRICKS_API_HOST";
             process_env !! "DATABRICKS_API_HOST"] = Some host →
  DatabricksGenericProvider.getApiUrl p process_env = "https://" +:+ host
  ∧ DatabricksGenericProvider.id p = "databricks:" +:+ modelName.
Proof.
  intros p Hhost Hbase Hfound. split.
  - unfold DatabricksGenericProvider.getApiUrl. rewrite Hhost.
    rewrite (str_or_r None) by reflexivity.
    rewrite <- first_set_merge, first_set_single in Hfound.
    destruct (str_truthy (str_or _ (process_env !! "DATABRICKS_API_HOST")));
      [|discriminate Hfound].
    now rewrite Hfound.
  - unfold DatabricksGenericProvider.id, DatabricksGenericProvider.id_method.
    cbn [Provider.id_override DatabricksGenericProvider.new str_truthy].
    now rewrite Hhost, Hbase.
Qed.

Lemma env_host_moves_url_not_id_example :
  DatabricksGenericProvider.getApiUrl env_host_provider ∅ = "https://h.example"
  ∧ DatabricksGenericProvider.id env_host_provider = "databricks:dbrx".
Proof.
  exact (env_host_moves_url_not_id "dbrx" (Some (keyed_config None))
           (Some {[ "DATABRICKS_API_HOST" := "h.example" ]}) ∅ "h.example"
           eq_refl eq_refl eq_refl).
Defined.

(** ** Member reads *)

Lemma bind_Normal {A B : Type} (a : A) (f : A → completion B) :
  (Normal a ≫= f) = f a.
Proof. reflexivity. Qed.

Lemma bind_Throw {A B : Type} (e : exn) (f : A → completion B) :
  (Throw e ≫= f) = Throw e.
Proof. reflexivity. Qed.

Lemma get_member (v : value) (k : string) :
  is_nullish v = false → get v k = Normal (member v k).
Proof. unfold get. now intros ->. Qed.

Lemma get_Normal (v : value) (k : string) (w : value) :
  get v k = Normal w → is_nullish v = false ∧ w = member v k.
Proof. unfold get. destruct (is_nullish v); [discriminate | intros [= <-]; auto]. Qed.

Lemma truthy_not_nullish (v : value) : is_truthy v = true → is_nullish v = false.
Proof. destruct v; simpl; (discriminate || reflexivity). Qed.

Lemma get2_member (v : value) (a b : string) :
  is_nullish v = false → is_truthy (member v a) = true →
  get2 v a b = Normal (member (member v a) b).
Proof.
  intros Hv Ha. unfold get2. rewrite (get_member v a Hv). cbn.
  apply get_member, truthy_not_nullish, Ha.
Qed.

Lemma or_zero_absent : or_zero VUndefined = VNum 0.
Proof. reflexivity. Qed.

Lemma or_zero_present (v : value) : is_truthy v = true → or_zero v = v.
Proof. unfold or_zero. now intros ->. Qed.

(** ** C4: token usage *)

(** C4: for a body with a usage object, a cache hit reports exactly [cached]
    and [total], both the usage's [total_tokens], and no [prompt] or
    [completion]; a fresh call reports [total], and [prompt] and [completion]
    from [prompt_tokens] and [completion_tokens], each [0] when absent. For a
    body without a usage object no field is reported. *)
Theorem C4_token_usage (data usage : value) :
  get data "usage" = Normal usage →
  (is_truthy usage = true →
     getTokenUsage data true
       = Normal {| TokenUsage.total := Some (member usage "total_tokens");
                   TokenUsage.prompt := None;
                   TokenUsage.completion := None;
                   TokenUsage.cached := Some (member usage "total_tokens") |}
     ∧ getTokenUsage data false
       = Normal {| TokenUsage.total := Some (member usage "total_tokens");
                   TokenUsage.prompt := Some (or_zero (member usage "prompt_tokens"));
                   TokenUsage.completion :=
                     Some (or_zero (member usage "completion_tokens"));
                   TokenUsage.cached := None |}
     ∧ (member usage "prompt_tokens" = VUndefined →
        or_zero (member usage "prompt_tokens") = VNum 0)
     ∧ (member usage "completion_tokens" = VUndefined →
        or_zero (member usage "completion_tokens") = VNum 0))
  ∧ (is_truthy usage = false →
     ∀ cached, getTokenUsage data cached = Normal TokenUsage.empty).
Proof.
  intros Hget. destruct (get_Normal _ _ _ Hget) as [Hdata ->].
  split.
  - intros Husage.
    assert (Hread : ∀ k, get2 data "usage" k = Normal (member (member data "usage") k))
      by (intros k; apply get2_member; assumption).
    split; [|split; [|split]].
    + unfold getTokenUsage. rewrite Hget. cbn. rewrite Husage, !Hread. reflexivity.
    + unfold getTokenUsage. rewrite Hget. cbn. rewrite Husage.
      unfold js_or. rewrite !Hread. cbn. unfold or_zero.
      destruct (is_truthy (member (member data "usage") "prompt_tokens"));
        destruct (is_truthy (member (member data "usage") "completion_tokens"));
        reflexivity.
    + intros ->. reflexivity.
    + intros ->. reflexivity.
  - intros Husage cached. unfold getTokenUsage. rewrite Hget. cbn.
    now rewrite Husage.
Qed.

(** The usage object with 30 total, 10 prompt and 20 completion tokens, on a
    cache hit and on a fresh call. *)
Lemma C4_witness :
  getTokenUsage example_usage_body true
    = Normal {| TokenUsage.total := Some (VNum 30); TokenUsage.prompt := None;
                TokenUsage.completion := None; TokenUsage.cached := Some (VNum 30) |}
  ∧ getTokenUsage example_usage_body false
    = Normal {| TokenUsage.total := Some (VNum 30); TokenUsage.prompt := Some (VNum 10);
                TokenUsage.completion := Some (VNum 20); TokenUsage.cached := None |}.
Proof.
  destruct (C4_token_usage example_usage_body
              (VObj [("total_tokens", VNum 30); ("prompt_tokens", VNum 10);
                     ("completion_tokens", VNum 20)]) eq_refl)
    as [Hpresent _].
  destruct (Hpresent eq_refl) as (Hhit & Hfresh & _).
  split; [exact Hhit | exact Hfresh].
Defined.

(** A usage object that carries only the total: the per-phase counts of a
    fresh call default to [0]. *)
Example getTokenUsage_defaults :
  getTokenUsage (VObj [("usage", VObj [("total_tokens", VNum 30)])]) false
    = Normal {| TokenUsage.total := Some (VNum 30); TokenUsage.prompt := Some (VNum 0);
                TokenUsage.completion := Some (VNum 0); TokenUsage.cached := None |}.
Proof. reflexivity. Qed.

Example getTokenUsage_no_usage (cached : bool) :
  getTokenUsage (VObj [("choices", VArr [])]) cached = Normal TokenUsage.empty.
Proof. reflexivity. Qed.

(** ** C5: cost *)

Lemma number_or_undefined_zero (x : float) :
  PrimFloat.is_zero x = true → number_or_undefined x = None.
Proof. unfold number_or_undefined, number_truthy. now intros ->. Qed.

Lemma number_or_undefined_nan (x : float) :
  PrimFloat.is_nan x = true → number_or_undefined x = None.
Proof.
  unfold number_or_undefined, number_truthy. intros ->.
  now rewrite orb_true_r.
Qed.

Lemma number_or_undefined_other (x : float) :
  PrimFloat.is_zero x = false → PrimFloat.is_nan x = false →
  number_or_undefined x = Some x.
Proof. unfold number_or_undefined, number_truthy. now intros -> ->. Qed.

(** The catalog holds exactly three ids, each with its rates. *)
Lemma catalog_find (modelName : string) :
  find (λ m, String.eqb (Model.id m) modelName) DATABRICKS_CHAT_MODELS =
    if String.eqb "databricks-dbrx-instruct" modelName then
      Some {| Model.id := "databricks-dbrx-instruct";
              Model.cost := Some {| ModelCost.input := 0.0008 / 1000;
                                    ModelCost.output := 0.0024 / 1000 |} |}
    else if String.eqb "databricks-mixtral-8x7b-instruct" modelName then
      Some {| Model.id := "databricks-mixtral-8x7b-instruct";
              Model.cost := Some {| ModelCost.input := 0.0005 / 1000;
                                    ModelCost.output := 0.001 / 1000 |} |}
    else if String.eqb "databricks-meta-llama-3-70b-instruct" modelName then
      Some {| Model.id := "databricks-meta-llama-3-70b-instruct";
              Model.cost := Some {| ModelCost.input := 0.0009 / 1000;
                                    ModelCost.output := 0.0027 / 1000 |} |}
    else None.
Proof. reflexivity. Qed.

Lemma catalog_entries_have_cost (model : Model.t) :
  In model DATABRICKS_CHAT_MODELS → Model.cost model ≠ None.
Proof.
  cbn. intros [<-|[<-|[<-|[]]]]; discriminate.
Qed.

Section Cost.
Context {js : Builtins}.

Lemma calculateCost_falsy_tokens (catalog : list Model.t) (modelName : string)
    (config : Config.t) (promptTokens completionTokens : value) :
  is_truthy promptTokens = false ∨ is_truthy completionTokens = false →
  calculateCostFrom catalog modelName config promptTokens completionTokens
  = Normal None.
Proof.
  unfold calculateCostFrom. intros [-> | ->]; cbn; [reflexivity|].
  now rewrite orb_true_r.
Qed.

Lemma calculateCost_priced (catalog : list Model.t) (modelName : string)
    (config : Config.t) (model : Model.t) (rates : ModelCost.t) (p c : float) :
  find (λ m, String.eqb (Model.id m) modelName) catalog = Some model →
  Model.cost model = Some rates →
  number_truthy p = true → number_truthy c = true →
  calculateCostFrom catalog modelName config (VNum p) (VNum c) =
    Normal (number_or_undefined
              (default (ModelCost.input rates) (Config.cost config) * p
               + default (ModelCost.output rates) (Config.cost config) * c)%float).
Proof.
  intros Hfind Hcost Hp Hc. unfold calculateCostFrom. cbn [is_truthy].
  rewrite Hp, Hc, Hfind, Hcost. reflexivity.
Qed.

(** A count that cannot be converted to a number makes the pricing throw:
    the counts are tested for truthiness, which an object passes, and then
    multiplied. *)
Lemma calculateCost_unconvertible (catalog : list Model.t) (modelName : string)
    (config : Config.t) (model : Model.t) (rates : ModelCost.t)
    (promptTokens completionTokens : value) (err : exn) :
  find (λ m, String.eqb (Model.id m) modelName) catalog = Some model →
  Model.cost model = Some rates →
  is_truthy promptTokens = true → is_truthy completionTokens = true →
  ToNumber promptTokens = Throw err →
  calculateCostFrom catalog modelName config promptTokens completionTokens
  = Throw err.
Proof.
  intros Hfind Hcost Hp Hc Hthrow. unfold calculateCostFrom.
  rewrite Hp, Hc, Hfind, Hcost, Hthrow. reflexivity.
Qed.

(** C5, amended. Cost is undefined when the model id is not in the catalog,
    when the entry found has no cost, or when the prompt or the completion
    count is falsy (missing, zero, also NaN). Otherwise, for numeric counts
    [p] and [c], it is [rate_in * p + rate_out * c] in binary64 arithmetic,
    where both rates are the config's [cost] when it is set and the entry's
    input and output rates when it is not; a result of zero (or NaN) is
    coalesced to undefined. For ["databricks-dbrx-instruct"] with 1000 and
    1000 tokens and no override the cost is the double
    0.0031999999999999997, within 1e-18 of 0.0032. *)
Theorem C5_cost_amended (modelName : string) (config : Config.t) :
  (find (λ m, String.eqb (Model.id m) modelName) DATABRICKS_CHAT_MODELS = None →
   ∀ promptTokens completionTokens,
     calculateCost modelName config promptTokens completionTokens = Normal None)
  ∧ (∀ catalog model promptTokens completionTokens,
       find (λ m, String.eqb (Model.id m) modelName) catalog = Some model →
       Model.cost model = None →
       calculateCostFrom catalog modelName config promptTokens completionTokens
       = Normal None)
  ∧ (∀ tokens,
       calculateCost modelName config VUndefined tokens = Normal None
       ∧ calculateCost modelName config tokens VUndefined = Normal None
       ∧ calculateCost modelName config (VNum 0) tokens = Normal None
       ∧ calculateCost modelName config tokens (VNum 0) = Normal None)
  ∧ (∀ model rates p c,
       find (λ m, String.eqb (Model.id m) modelName) DATABRICKS_CHAT_MODELS
       = Some model →
       Model.cost model = Some rates →
       number_truthy p = true → number_truthy c = true →
       (Config.cost config = None →
        calculateCost modelName config (VNum p) (VNum c)
        = Normal (number_or_undefined
                    (ModelCost.input rates * p + ModelCost.output rates * c)%float))
       ∧ (∀ override, Config.cost config = Some override →
          calculateCost modelName config (VNum p) (VNum c)
          = Normal (number_or_undefined (override * p + override * c)%float)))
  ∧ (∀ x, (PrimFloat.is_zero x = true → number_or_undefined x = None)
          ∧ (PrimFloat.is_nan x = true → number_or_undefined x = None)
          ∧ (PrimFloat.is_zero x = false → PrimFloat.is_nan x = false →
             number_or_undefined x = Some x))
  ∧ calculateCost "databricks-dbrx-instruct" Config.empty (VNum 1000) (VNum 1000)
    = Normal (Some 0.0031999999999999997%float)
  ∧ (abs (0.0031999999999999997 - 0.0032) <? 1e-18)%float = true.
Proof.
  split; [|split; [|split; [|split; [|split; [|split]]]]].
  - intros Hfind promptTokens completionTokens.
    unfold calculateCost, calculateCostFrom. rewrite Hfind.
    now destruct (negb _ || negb _).
  - intros catalog model promptTokens completionTokens Hfind Hcost.
    unfold calculateCostFrom. rewrite Hfind, Hcost.
    now destruct (negb _ || negb _).
  - intros tokens. unfold calculateCost.
    repeat split; apply calculateCost_falsy_tokens; auto.
  - intros model rates p c Hfind Hcost Hp Hc. unfold calculateCost.
    rewrite (calculateCost_priced _ _ _ _ _ _ _ Hfind Hcost Hp Hc).
    split; [intros -> | intros override ->]; reflexivity.
  - intros x. split; [|split].
    + apply number_or_undefined_zero.
    + apply number_or_undefined_nan.
    + apply number_or_undefined_other.
  - vm_compute. reflexivity.
  - vm_compute. reflexivity.
Qed.

End Cost.

(** C5, as stated, fails on its example: with the rates stored as
    [0.0008 / 1000] and [0.0024 / 1000], the cost of 1000 and 1000 tokens is
    one unit in the last place below the double written [0.0032]. *)
Lemma C5_counterexample :
  calculateCost (js := example_builtins)
    "databricks-dbrx-instruct" Config.empty (VNum 1000) (VNum 1000)
  ≠ Normal (Some 0.0032%float).
Proof.
  intros Hcost.
  apply (f_equal (λ cost, match cost with
                          | Normal (Some x) => PrimFloat.eqb x 0.0032
                          | _ => false
                          end)) in Hcost.
  vm_compute in Hcost. discriminate Hcost.
Qed.

(** An override of 2 per token prices 10 prompt and 20 completion tokens at
    60, not at the catalog's rates. *)
Lemma C5_witness :
  calculateCost (js := example_builtins)
    "databricks-dbrx-instruct" (flat_rate_config 2) (VNum 10) (VNum 20)
  = Normal (Some 60%float).
Proof.
  destruct (C5_cost_amended (js := example_builtins)
              "databricks-dbrx-instruct" (flat_rate_config 2))
    as (_ & _ & _ & Hpriced & _).
  destruct (Hpriced _ _ 10%float 20%float eq_refl eq_refl eq_refl eq_refl)
    as [_ Hoverride].
  exact (Hoverride 2%float eq_refl).
Defined.

(** Unknown model, zero prompt tokens. *)
Example calculateCost_unknown_model :
  calculateCost (js := example_builtins) "gpt-4" Config.empty (VNum 1000) (VNum 1000)
  = Normal None.
Proof. reflexivity. Qed.

Example calculateCost_zero_prompt :
  calculateCost (js := example_builtins)
    "databricks-dbrx-instruct" Config.empty (VNum 0) (VNum 1000) = Normal None.
Proof. reflexivity. Qed.

(** ** Occurrence of a text in another *)

Lemma append_assoc (a b c : string) : (a +:+ b) +:+ c = a +:+ b +:+ c.
Proof.
  induction a as [|ch a IH]; [reflexivity|].
  change (String ch ((a +:+ b) +:+ c) = String ch (a +:+ b +:+ c)).
  now rewrite IH.
Qed.

Lemma append_empty_r (a : string) : a +:+ "" = a.
Proof.
  induction a as [|ch a IH]; [reflexivity|].
  change (String ch (a +:+ "") = String ch a). now rewrite IH.
Qed.

Lemma contains_refl (text : string) : contains text text.
Proof. exists "", "". change (text = text +:+ ""). now rewrite append_empty_r. Qed.

Lemma contains_app_l (a b part : string) : contains a part → contains (a +:+ b) part.
Proof.
  intros (before & after & ->). exists before, (after +:+ b).
  now rewrite !append_assoc.
Qed.

Lemma contains_app_r (a b part : string) : contains b part → contains (a +:+ b) part.
Proof.
  intros (before & after & ->). exists (a +:+ before), after.
  now rewrite !append_assoc.
Qed.

Create HintDb contains.
#[local] Hint Resolve contains_refl contains_app_l contains_app_r : contains.

(** ** C8: a body that carries an error *)

Section ErrorBody.
Context {js : Builtins} {helpers : RequestHelpers}.


(** Whatever text [formatDatabricksError] builds begins with the prefix. *)
Lemma formatDatabricksError_prefix (data : value) (text : string) :
  formatDatabricksError data = Normal text → starts_with text "API error: ".
Proof.
  unfold formatDatabricksError. cbv zeta.
  repeat
    (first
       [ rewrite bind_Normal
       | progress cbv beta iota
       | match goal with
         | |- ((if ?b then _ else _) ≫= _) = Normal _ → _ => destruct b
         | |- ((?m ≫= _) ≫= _) = Normal _ → _ => destruct m; [|discriminate]
         | |- (?m ≫= _) = Normal _ → _ => destruct m; [|discriminate]
         end ]).
  all: intros [= <-]; rewrite ?append_assoc; eexists; reflexivity.
Qed.

(** What [callApi] answers once the key and the request are there and the
    collaborator has answered. *)
Lemma callApi_fetched (p : Provider.t) (options : Generation.t)
    (process_env : env_map) (fetchWithCache : FetchRequest.t → FetchOutcome)
    (call : Call.t) (body : string) (data : value) (cached : bool) :
  found_truthy (DatabricksGenericProvider.getApiKey p process_env) = true →
  DatabricksChatCompletionProvider.prepare_body p options process_env call
    = Normal body →
  fetchWithCache (DatabricksChatCompletionProvider.build_request p process_env body)
    = FetchReturns data cached →
  result (DatabricksChatCompletionProvider.callApi p options process_env
            fetchWithCache call)
  = DatabricksChatCompletionProvider.read_response p data cached.
Proof.
  intros Hkey Hprepare Hfetch. unfold DatabricksChatCompletionProvider.callApi.
  rewrite Hkey, Hprepare. cbn [negb]. cbv zeta. rewrite Hfetch. reflexivity.
Qed.


End ErrorBody.



(** ** The success path *)

Lemma getTokenUsage_returns (data : value) (cached : bool) :
  is_nullish data = false → ∃ tokenUsage, getTokenUsage data cached = Normal tokenUsage.
Proof.
  intros Hdata. unfold getTokenUsage. rewrite (get_member _ _ Hdata). cbn.
  destruct (is_truthy (member data "usage")) eqn:Husage; [|eauto].
  assert (Hread : ∀ k, get2 data "usage" k = Normal (member (member data "usage") k))
    by (intros k; apply get2_member; assumption).
  unfold js_or. rewrite !Hread. cbn.
  destruct cached; [eauto|].
  destruct (is_truthy (member (member data "usage") "prompt_tokens"));
    destruct (is_truthy (member (member data "usage") "completion_tokens"));
    cbn; eauto.
Qed.

Section SuccessPath.
Context {js : Builtins} {helpers : RequestHelpers}.

Lemma first_message_data (data message : value) :
  DatabricksChatCompletionProvider.first_message data = Normal message →
  is_nullish data = false.
Proof.
  unfold DatabricksChatCompletionProvider.first_message, get.
  destruct (is_nullish data); [discriminate | reflexivity].
Qed.

Lemma select_output_value (message : value) :
  is_nullish message = false →
  DatabricksChatCompletionProvider.select_output message =
    Normal
      (let content := member message "content" in
       let function_call := member message "function_call" in
       let tool_calls := member message "tool_calls" in
       if is_truthy content && (is_truthy function_call || is_truthy tool_calls)
       then message
       else match content with
            | VNull => if is_truthy function_call then function_call else tool_calls
            | _ => content
            end).
Proof.
  intros Hmessage.
  unfold DatabricksChatCompletionProvider.select_output, js_and, js_or.
  rewrite !(get_member message _ Hmessage). cbn.
  destruct (is_truthy (member message "content")) eqn:Hcontent; cbn.
  - destruct (is_truthy (member message "function_call")) eqn:Hfc; cbn.
    + now rewrite Hfc.
    + destruct (is_truthy (member message "tool_calls")) eqn:Htc; cbn.
      * reflexivity.
      * rewrite ?Htc.
        destruct (member message "content"); (reflexivity || discriminate Hcontent).
  - rewrite ?Hcontent. destruct (member message "content"); try reflexivity.
    cbn. destruct (is_truthy (member message "function_call")); reflexivity.
Qed.

Lemma carried_calls_value (message : value) :
  is_nullish message = false →
  DatabricksChatCompletionProvider.carried_calls message =
    Normal (if is_truthy (member message "function_call")
            then VArr [member message "function_call"]
            else member message "tool_calls").
Proof.
  intros Hmessage. unfold DatabricksChatCompletionProvider.carried_calls.
  rewrite !(get_member message _ Hmessage). cbn.
  destruct (is_truthy (member message "function_call")); reflexivity.
Qed.

Lemma run_callbacks_unmatched (callbacks : gmap string callback)
    (message : value) (calls : list value) :
  Forall (λ functionCall,
            is_nullish functionCall = false
            ∧ ∃ key,
                ToString (member functionCall "name") = Normal key
                ∧ lookup_by_name callbacks key = None) calls →
  DatabricksChatCompletionProvider.run_callbacks callbacks message calls
  = Normal None.
Proof.
  induction 1 as [|functionCall rest (Hcall & key & Hkey & Hname) _ IH];
    [reflexivity|].
  cbn [DatabricksChatCompletionProvider.run_callbacks].
  rewrite (get_member _ _ Hcall), bind_Normal, Hkey, bind_Normal, Hname. exact IH.
Qed.

Lemma response_cost_value (p : Provider.t) (data : value) :
  is_nullish data = false →
  DatabricksChatCompletionProvider.response_cost p data =
    calculateCost (Provider.modelName p) (Provider.config p)
      (get_optional (member data "usage") "prompt_tokens")
      (get_optional (member data "usage") "completion_tokens").
Proof.
  intros Hdata. unfold DatabricksChatCompletionProvider.response_cost.
  rewrite (get_member _ _ Hdata). reflexivity.
Qed.

(** The cost of a body is always computed when its usage carries no object
    among the two counts: numbers, strings, or nothing. *)
Lemma response_cost_returns (p : Provider.t) (data : value) :
  is_nullish data = false →
  (∀ fields, get_optional (member data "usage") "prompt_tokens" ≠ VObj fields) →
  (∀ items, get_optional (member data "usage") "prompt_tokens" ≠ VArr items) →
  (∀ fields, get_optional (member data "usage") "completion_tokens" ≠ VObj fields) →
  (∀ items, get_optional (member data "usage") "completion_tokens" ≠ VArr items) →
  ∃ cost, DatabricksChatCompletionProvider.response_cost p data = Normal cost.
Proof.
  intros Hdata Hp1 Hp2 Hc1 Hc2. rewrite (response_cost_value p data Hdata).
  unfold calculateCost, calculateCostFrom.
  destruct (negb _ || negb _); [eauto|].
  destruct (find _ _) as [model|]; [|eauto].
  destruct (Model.cost model); [|eauto].
  destruct (get_optional (member data "usage") "prompt_tokens") as [| |[|]| | |items|fields];
    try (now destruct (Hp1 fields)); try (now destruct (Hp2 items));
    (destruct (get_optional (member data "usage") "completion_tokens")
       as [| |[|]| | |items'|fields'];
     try (now destruct (Hc1 fields')); try (now destruct (Hc2 items'));
     cbn; eauto).
Qed.

(** With no callback in play, the [try] block returns the selected output
    with the usage, cache flag, log-probabilities and cost of the body. *)
Lemma read_success_plain (p : Provider.t) (data : value) (cached : bool)
    (message logProbs : value) (cost : option float) :
  DatabricksChatCompletionProvider.first_message data = Normal message →
  is_nullish message = false →
  DatabricksChatCompletionProvider.extract_logProbs data = Normal logProbs →
  DatabricksChatCompletionProvider.response_cost p data = Normal cost →
  no_callback_applies p message →
  ∃ output tokenUsage,
    DatabricksChatCompletionProvider.select_output message = Normal output
    ∧ getTokenUsage data cached = Normal tokenUsage
    ∧ DatabricksChatCompletionProvider.read_success p data cached =
        Normal {| Response.error := None;
                  Response.output := output;
                  Response.tokenUsage := Some tokenUsage;
                  Response.cached := Some cached;
                  Response.logProbs := logProbs;
                  Response.cost := cost |}.
Proof.
  intros Hmsg Hmessage Hlog Hcost Hnone.
  pose proof (first_message_data _ _ Hmsg) as Hdata.
  destruct (getTokenUsage_returns data cached Hdata) as [tokenUsage Husage].
  eexists. exists tokenUsage.
  split; [apply (select_output_value message Hmessage)|]. split; [exact Husage|].
  unfold DatabricksChatCompletionProvider.read_success.
  rewrite Hmsg. cbn. rewrite (select_output_value message Hmessage). cbn.
  rewrite Hlog. cbn. rewrite (carried_calls_value message Hmessage). cbn.
  assert (Hcalled :
    match (if is_truthy (if is_truthy (member message "function_call")
                         then VArr [member message "function_call"]
                         else member message "tool_calls")
           then Config.functionToolCallbacks (Provider.config p) else None) with
    | Some callbacks =>
        calls ← iterate "functionCalls"
                  (if is_truthy (member message "function_call")
                   then VArr [member message "function_call"]
                   else member message "tool_calls");
        DatabricksChatCompletionProvider.run_callbacks callbacks message calls
    | None => Normal None
    end = Normal None).
  { destruct Hnone as [-> | [-> | (callbacks & calls & -> & -> & Hcalls)]].
    - now destruct (is_truthy _).
    - reflexivity.
    - destruct (is_truthy _); [|reflexivity]. cbn.
      apply run_callbacks_unmatched, Hcalls. }
  rewrite Hcalled. cbn. rewrite Husage. cbn.
  rewrite Hcost. reflexivity.
Qed.

End SuccessPath.

(** ** C3 and C10: the output of a response without a callback *)

Section Output.
Context {js : Builtins} {helpers : RequestHelpers}.

(** What [callApi] answers for a body that has no [error], parses, and to
    which no callback applies. *)
Lemma callApi_plain (p : Provider.t) (options : Generation.t)
    (process_env : env_map) (fetchWithCache : FetchRequest.t → FetchOutcome)
    (call : Call.t) (body : string)
    (data : value) (cached : bool) (message logProbs : value)
    (cost : option float) :
  found_truthy (DatabricksGenericProvider.getApiKey p process_env) = true →
  DatabricksChatCompletionProvider.prepare_body p options process_env call
    = Normal body →
  fetchWithCache (DatabricksChatCompletionProvider.build_request p process_env body)
    = FetchReturns data cached →
  is_truthy (member data "error") = false →
  DatabricksChatCompletionProvider.first_message data = Normal message →
  is_nullish message = false →
  DatabricksChatCompletionProvider.extract_logProbs data = Normal logProbs →
  DatabricksChatCompletionProvider.response_cost p data = Normal cost →
  no_callback_applies p message →
  ∃ r,
    result (DatabricksChatCompletionProvider.callApi p options process_env
              fetchWithCache call)
      = Normal r
    ∧ Response.error r = None
    ∧ DatabricksChatCompletionProvider.select_output message
      = Normal (Response.output r)
    ∧ getTokenUsage data cached = Normal (default TokenUsage.empty (Response.tokenUsage r))
    ∧ Response.cached r = Some cached
    ∧ Response.logProbs r = logProbs
    ∧ Response.cost r = cost.
Proof.
  intros Hkey Hprepare Hfetch Herror Hmsg Hmessage Hlog Hcost Hnone.
  destruct (read_success_plain p data cached message logProbs cost
              Hmsg Hmessage Hlog Hcost Hnone)
    as (output & tokenUsage & Hout & Huse & Hread).
  eexists. split.
  - rewrite (callApi_fetched _ _ _ _ _ _ _ _ Hkey Hprepare Hfetch).
    unfold DatabricksChatCompletionProvider.read_response.
    rewrite (get_member _ _ (first_message_data _ _ Hmsg)), bind_Normal, Herror.
    rewrite Hread. reflexivity.
  - cbn. auto 10.
Qed.


(** C10, amended: when no callback applies, a message whose content is the
    empty string has the empty string as output, whether or not it carries a
    function call or tool calls. *)
Theorem C10_empty_content_amended (p : Provider.t) (options : Generation.t)
    (process_env : env_map) (fetchWithCache : FetchRequest.t → FetchOutcome)
    (call : Call.t) (body : string)
    (data : value) (cached : bool) (message logProbs : value)
    (cost : option float) :
  found_truthy (DatabricksGenericProvider.getApiKey p process_env) = true →
  DatabricksChatCompletionProvider.prepare_body p options process_env call
    = Normal body →
  fetchWithCache (DatabricksChatCompletionProvider.build_request p process_env body)
    = FetchReturns data cached →
  is_truthy (member data "error") = false →
  DatabricksChatCompletionProvider.first_message data = Normal message →
  DatabricksChatCompletionProvider.extract_logProbs data = Normal logProbs →
  DatabricksChatCompletionProvider.response_cost p data = Normal cost →
  no_callback_applies p message →
  member message "content" = VStr "" →
  ∃ r,
    result (DatabricksChatCompletionProvider.callApi p options process_env
              fetchWithCache call)
      = Normal r
    ∧ Response.error r = None
    ∧ Response.output r = VStr "".
Proof.
  intros Hkey Hprepare Hfetch Herror Hmsg Hlog Hcost Hnone Hcontent.
  assert (Hmessage : is_nullish message = false)
    by (destruct message; (reflexivity || discriminate Hcontent)).
  destruct (callApi_plain p options process_env fetchWithCache call body
              data cached message logProbs cost
              Hkey Hprepare Hfetch Herror Hmsg Hmessage Hlog Hcost Hnone)
    as (r & Hr & Herr & Hout & _).
  exists r. split; [exact Hr|]. split; [exact Herr|].
  rewrite (select_output_value message Hmessage) in Hout.
  injection Hout as Hout. rewrite <- Hout, Hcontent. reflexivity.
Qed.

End Output.

(** The request of the examples is prepared. *)
Lemma example_call_prepared (p : Provider.t) (process_env : env_map) :
  DatabricksChatCompletionProvider.prepare_body (helpers := example_helpers)
    p Generation.empty process_env example_call = Normal "{}".
Proof. reflexivity. Qed.


(** The other two shapes of the specification's example. *)
Example output_plain_text :
  result (DatabricksChatCompletionProvider.callApi
            (js := example_builtins) (helpers := example_helpers)
            (keyed_provider None) Generation.empty ∅
            (answering (chat_body (VObj [("content", VStr "hi")]))) example_call)
  = Normal {| Response.error := None; Response.output := VStr "hi";
              Response.tokenUsage := Some TokenUsage.empty;
              Response.cached := Some false; Response.logProbs := VUndefined;
              Response.cost := None |}.
Proof. vm_compute. reflexivity. Qed.

Example output_whole_message :
  result (DatabricksChatCompletionProvider.callApi
            (js := example_builtins) (helpers := example_helpers)
            (keyed_provider None) Generation.empty ∅
            (answering (chat_body text_and_tools_message)) example_call)
  = Normal {| Response.error := None; Response.output := text_and_tools_message;
              Response.tokenUsage := Some TokenUsage.empty;
              Response.cached := Some false; Response.logProbs := VUndefined;
              Response.cost := None |}.
Proof. vm_compute. reflexivity. Qed.

(** A call named like a member every object inherits is answered by that
    member, although the table registers no callback under the name. *)
Example inherited_member_is_called :
  let message :=
    VObj [("content", VNull);
          ("function_call", VObj [("name", VStr "toString");
                                  ("arguments", VStr "{}")])] in
  result (DatabricksChatCompletionProvider.callApi
            (js := example_builtins) (helpers := example_helpers)
            (keyed_provider (Some (answer_42 "f"))) Generation.empty ∅
            (answering (chat_body message)) example_call)
  = Normal {| Response.error := None;
              Response.output := VStr "[object Object]";
              Response.tokenUsage := Some TokenUsage.empty;
              Response.cached := Some false; Response.logProbs := VUndefined;
              Response.cost := None |}.
Proof. vm_compute. reflexivity. Qed.

(** C10, as stated, fails: with a callback registered for the carried call,
    the output of a message with empty content is the callback's answer. *)
Lemma C10_counterexample :
  member empty_text_message "content" = VStr ""
  ∧ member empty_text_message "function_call" = call_f
  ∧ ∃ r,
      result (DatabricksChatCompletionProvider.callApi
                (js := example_builtins) (helpers := example_helpers)
                (keyed_provider (Some (answer_42 "f"))) Generation.empty ∅
                (answering (chat_body empty_text_message)) example_call)
        = Normal r
      ∧ Response.error r = None
      ∧ Response.output r = VStr "42"
      ∧ Response.output r ≠ VStr "".
Proof.
  split; [reflexivity|]. split; [reflexivity|].
  eexists. split; [vm_compute; reflexivity|].
  cbn. split; [reflexivity|]. split; [reflexivity | discriminate].
Qed.

(** Without a callback table the same message has the empty string as output. *)
Lemma C10_witness :
  ∃ r,
    result (DatabricksChatCompletionProvider.callApi
              (js := example_builtins) (helpers := example_helpers)
              (keyed_provider None) Generation.empty ∅
              (answering (chat_body empty_text_message)) example_call)
      = Normal r
    ∧ Response.error r = None
    ∧ Response.output r = VStr "".
Proof.
  exact (C10_empty_content_amended
           (js := example_builtins) (helpers := example_helpers)
           (keyed_provider None) Generation.empty ∅
           (answering (chat_body empty_text_message)) example_call "{}"
           (chat_body empty_text_message) false empty_text_message VUndefined None
           eq_refl (example_call_prepared _ _) eq_refl eq_refl eq_refl eq_refl
           eq_refl (or_introl eq_refl) eq_refl).
Defined.

(** ** C1: function and tool callbacks *)

Lemma lookup_by_name_own {A : Type} (table : gmap string A) (name : string) (a : A) :
  table !! name = Some a → lookup_by_name table name = Some (Own a).
Proof. unfold lookup_by_name. now intros ->. Qed.

Section Callbacks.
Context {js : Builtins} {helpers : RequestHelpers}.

(** What the [try] block does when the message carries a [function_call]
    whose name keys a callback of the table: it runs that callback on the
    call's argument string. *)
Lemma read_success_function_call (p : Provider.t) (data : value) (cached : bool)
    (message logProbs : value) (callbacks : gmap string callback) (key : string)
    (registered : callback) :
  DatabricksChatCompletionProvider.first_message data = Normal message →
  is_nullish message = false →
  DatabricksChatCompletionProvider.extract_logProbs data = Normal logProbs →
  is_truthy (member message "function_call") = true →
  Config.functionToolCallbacks (Provider.config p) = Some callbacks →
  ToString (member (member message "function_call") "name") = Normal key →
  callbacks !! key = Some registered →
  DatabricksChatCompletionProvider.read_success p data cached =
    (answer ← registered (member (member message "function_call") "arguments");
     tokenUsage ← getTokenUsage data cached;
     cost ← DatabricksChatCompletionProvider.response_cost p data;
     Normal {| Response.error := None;
               Response.output := VStr answer;
               Response.tokenUsage := Some tokenUsage;
               Response.cached := Some cached;
               Response.logProbs := logProbs;
               Response.cost := cost |}).
Proof.
  intros Hmsg Hmessage Hlog Hfc Htable Hkey Hname.
  unfold DatabricksChatCompletionProvider.read_success.
  rewrite Hmsg, bind_Normal, (select_output_value message Hmessage), bind_Normal.
  rewrite Hlog, bind_Normal, (carried_calls_value message Hmessage), bind_Normal.
  rewrite Hfc. cbn [is_truthy]. rewrite Htable.
  cbn [iterate]. rewrite bind_Normal.
  cbn [DatabricksChatCompletionProvider.run_callbacks].
  rewrite (get_member _ _ (truthy_not_nullish _ Hfc)), bind_Normal, Hkey, bind_Normal.
  rewrite (lookup_by_name_own _ _ _ Hname).
  unfold DatabricksChatCompletionProvider.call_member.
  rewrite (get2_member message "function_call" "arguments" Hmessage Hfc), bind_Normal.
  destruct (registered _); reflexivity.
Qed.

(** The path that works: the message carries a [function_call] whose name
    keys a callback. The callback is handed that call's argument string and
    its answer becomes the output; usage, cache flag, log-probabilities and
    cost are those of the response. *)
Lemma function_call_callback (p : Provider.t) (options : Generation.t)
    (process_env : env_map) (fetchWithCache : FetchRequest.t → FetchOutcome)
    (call : Call.t) (body : string)
    (data : value) (cached : bool) (message logProbs : value)
    (callbacks : gmap string callback) (key : string) (registered : callback)
    (answer : string) (cost : option float) :
  found_truthy (DatabricksGenericProvider.getApiKey p process_env) = true →
  DatabricksChatCompletionProvider.prepare_body p options process_env call
    = Normal body →
  fetchWithCache (DatabricksChatCompletionProvider.build_request p process_env body)
    = FetchReturns data cached →
  is_truthy (member data "error") = false →
  DatabricksChatCompletionProvider.first_message data = Normal message →
  is_nullish message = false →
  DatabricksChatCompletionProvider.extract_logProbs data = Normal logProbs →
  is_truthy (member message "function_call") = true →
  Config.functionToolCallbacks (Provider.config p) = Some callbacks →
  ToString (member (member message "function_call") "name") = Normal key →
  callbacks !! key = Some registered →
  registered (member (member message "function_call") "arguments") = Normal answer →
  DatabricksChatCompletionProvider.response_cost p data = Normal cost →
  ∃ tokenUsage,
    getTokenUsage data cached = Normal tokenUsage
    ∧ result (DatabricksChatCompletionProvider.callApi p options process_env
                fetchWithCache call)
      = Normal {| Response.error := None;
                  Response.output := VStr answer;
                  Response.tokenUsage := Some tokenUsage;
                  Response.cached := Some cached;
                  Response.logProbs := logProbs;
                  Response.cost := cost |}.
Proof.
  intros Hkey Hprepare Hfetch Herror Hmsg Hmessage Hlog Hfc Htable Hname Hfound
    Hanswer Hcost.
  pose proof (first_message_data _ _ Hmsg) as Hdata.
  destruct (getTokenUsage_returns data cached Hdata) as [tokenUsage Husage].
  exists tokenUsage. split; [exact Husage|].
  rewrite (callApi_fetched _ _ _ _ _ _ _ _ Hkey Hprepare Hfetch).
  unfold DatabricksChatCompletionProvider.read_response.
  rewrite (get_member _ _ Hdata), bind_Normal, Herror.
  rewrite (read_success_function_call p data cached message logProbs callbacks key
             registered Hmsg Hmessage Hlog Hfc Htable Hname Hfound).
  rewrite Hanswer, bind_Normal, Husage, bind_Normal, Hcost. reflexivity.
Qed.

(** The path that fails: the message carries no [function_call], so the
    calls are its [tool_calls]. Calls whose name keys nothing in the table
    are skipped; at the first call whose name keys a member, the argument
    is read from [message.function_call], which is [undefined], and the read
    throws before the member is called. *)
Lemma tool_call_callback_throws (callbacks : gmap string callback)
    (message : value) (skipped : list value) (matching : value)
    (rest : list value) (key : string) (registered : found callback) :
  is_nullish message = false →
  is_nullish (member message "function_call") = true →
  Forall (λ functionCall,
            is_nullish functionCall = false
            ∧ ∃ key,
                ToString (member functionCall "name") = Normal key
                ∧ lookup_by_name callbacks key = None) skipped →
  is_nullish matching = false →
  ToString (member matching "name") = Normal key →
  lookup_by_name callbacks key = Some registered →
  DatabricksChatCompletionProvider.run_callbacks callbacks message
    (skipped ++ matching :: rest)
  = Throw (cannot_read (member message "function_call") "arguments").
Proof.
  intros Hmessage Hfc Hskipped Hmatching Hkey Hname.
  induction Hskipped as [|functionCall others (Hcall & key' & Hkey' & Hnone) _ IH].
  - cbn [app DatabricksChatCompletionProvider.run_callbacks].
    rewrite (get_member _ _ Hmatching), bind_Normal, Hkey, bind_Normal, Hname.
    unfold DatabricksChatCompletionProvider.call_member, get2.
    rewrite (get_member _ _ Hmessage), bind_Normal.
    unfold get. rewrite Hfc. reflexivity.
  - cbn [app DatabricksChatCompletionProvider.run_callbacks].
    rewrite (get_member _ _ Hcall), bind_Normal, Hkey', bind_Normal, Hnone. exact IH.
Qed.

(** C1 at its failing input: a callback is registered for ["lookup"] and the
    response carries a tool call named ["lookup"]. Whatever the callback
    would answer, once the request is prepared and answered [callApi]
    answers an error result: the output is not the callback's string. *)
Theorem C1_tool_call_callback_fails (registered : callback)
    (options : Generation.t) (process_env : env_map) (call : Call.t)
    (body : string) (cached : bool) :
  let message :=
    VObj [("content", VNull);
          ("tool_calls", VArr [VObj [("name", VStr "lookup");
                                     ("arguments", VStr "{}")]])] in
  let p := keyed_provider (Some {[ "lookup" := registered ]}) in
  DatabricksChatCompletionProvider.prepare_body p options process_env call
    = Normal body →
  result (DatabricksChatCompletionProvider.callApi p options process_env
            (λ _, FetchReturns (chat_body message) cached) call)
  = Normal {| Response.error :=
                Some ("API error: TypeError: Cannot read properties of undefined (reading 'arguments'): "
                      +:+ JSON_stringify (chat_body message));
              Response.output := VUndefined;
              Response.tokenUsage := None;
              Response.cached := None;
              Response.logProbs := VUndefined;
              Response.cost := None |}.
Proof.
  intros message p Hprepare.
  rewrite (callApi_fetched p options process_env _ call body (chat_body message)
             cached eq_refl Hprepare eq_refl).
  vm_compute. reflexivity.
Qed.

End Callbacks.

(** The specification's example: the callback for ["lookup"] would answer
    ["42"], the response carries a tool call named ["lookup"], and the
    result is an error. *)
Lemma C1_witness :
  result (DatabricksChatCompletionProvider.callApi
            (js := example_builtins) (helpers := example_helpers)
            (keyed_provider (Some (answer_42 "lookup"))) Generation.empty ∅
            (answering (chat_body lookup_tool_message)) example_call)
  = Normal {| Response.error :=
                Some "API error: TypeError: Cannot read properties of undefined (reading 'arguments'): {}";
              Response.output := VUndefined;
              Response.tokenUsage := None;
              Response.cached := None;
              Response.logProbs := VUndefined;
              Response.cost := None |}.
Proof.
  exact (C1_tool_call_callback_fails
           (js := example_builtins) (helpers := example_helpers)
           (λ _, Normal "42") Generation.empty ∅ example_call "{}" false
           (example_call_prepared _ _)).
Defined.

(** The specification's example on the path that works: the call arrives as
    [function_call]. *)
Example lookup_function_call_answers_42 :
  result (DatabricksChatCompletionProvider.callApi
            (js := example_builtins) (helpers := example_helpers)
            (keyed_provider (Some (answer_42 "lookup"))) Generation.empty ∅
            (answering (chat_body lookup_call_message)) example_call)
  = Normal {| Response.error := None; Response.output := VStr "42";
              Response.tokenUsage := Some TokenUsage.empty;
              Response.cached := Some false; Response.logProbs := VUndefined;
              Response.cost := None |}.
Proof. vm_compute. reflexivity. Qed.

(** A tool call in the wire shape of the OpenAI API keeps its name under
    [function], so it has no [name] of its own: the lookup uses the key
    ["undefined"], no callback applies, and the output is the list of tool
    calls. *)
Example nested_tool_call_is_not_matched :
  let tool_calls :=
    VArr [VObj [("id", VStr "call_1"); ("type", VStr "function");
                ("function", VObj [("name", VStr "lookup");
                                   ("arguments", VStr "{}")])]] in
  result (DatabricksChatCompletionProvider.callApi
            (js := example_builtins) (helpers := example_helpers)
            (keyed_provider (Some (answer_42 "lookup"))) Generation.empty ∅
            (answering (chat_body (VObj [("content", VNull);
                                         ("tool_calls", tool_calls)])))
            example_call)
  = Normal {| Response.error := None; Response.output := tool_calls;
              Response.tokenUsage := Some TokenUsage.empty;
              Response.cached := Some false; Response.logProbs := VUndefined;
              Response.cost := None |}.
Proof. vm_compute. reflexivity. Qed.

(** ** C9: the shape of results *)

Section ResultShape.
Context {js : Builtins} {helpers : RequestHelpers}.

(** Every response the [try] block returns is a success response. *)
Lemma read_success_no_error (p : Provider.t) (data : value) (cached : bool)
    (r : Response.t) :
  DatabricksChatCompletionProvider.read_success p data cached = Normal r →
  Response.error r = None.
Proof.
  unfold DatabricksChatCompletionProvider.read_success.
  repeat
    (match goal with
     | |- (?m ≫= _) = Normal _ → _ =>
         destruct m; [rewrite bind_Normal; cbv beta | rewrite bind_Throw; discriminate]
     | |- match ?called with Some _ => _ | None => _ end = Normal _ → _ =>
         destruct called
     end).
  all: intros [= <-]; reflexivity.
Qed.


(** The exceptions the program raises itself are Error objects, and an
    Error object always has a text. *)
Lemma exn_text_error (err : exn) :
  (∀ v, err ≠ Thrown v) → ∃ text, exn_text err = Normal text.
Proof. destruct err as [msg|msg|v]; cbn; eauto. intros Hv. now destruct (Hv v). Qed.


(** The slips the amended statement leaves out. The [data.error] test stands
    before the [try], so a body that decodes to [null] makes [callApi] throw
    although a key is set. *)
Lemma null_body_throws (p : Provider.t) (options : Generation.t)
    (process_env : env_map) (call : Call.t) (body : string) (cached : bool) :
  found_truthy (DatabricksGenericProvider.getApiKey p process_env) = true →
  DatabricksChatCompletionProvider.prepare_body p options process_env call
    = Normal body →
  result (DatabricksChatCompletionProvider.callApi p options process_env
            (λ _, FetchReturns VNull cached) call)
  = Throw (TypeError "Cannot read properties of null (reading 'error')").
Proof.
  intros Hkey Hprepare.
  now rewrite (callApi_fetched _ _ _ _ _ _ VNull cached Hkey Hprepare eq_refl).
Qed.

(** The text of an error body is built outside the [try] as well: when it
    cannot be built, [callApi] throws. *)
Lemma unprintable_error_throws (p : Provider.t) (options : Generation.t)
    (process_env : env_map) (fetchWithCache : FetchRequest.t → FetchOutcome)
    (call : Call.t) (body : string) (data : value) (cached : bool) (err : exn) :
  found_truthy (DatabricksGenericProvider.getApiKey p process_env) = true →
  DatabricksChatCompletionProvider.prepare_body p options process_env call
    = Normal body →
  fetchWithCache (DatabricksChatCompletionProvider.build_request p process_env body)
    = FetchReturns data cached →
  is_truthy (member data "error") = true →
  formatDatabricksError data = Throw err →
  result (DatabricksChatCompletionProvider.callApi p options process_env
            fetchWithCache call)
  = Throw err.
Proof.
  intros Hkey Hprepare Hfetch Herror Hformat.
  rewrite (callApi_fetched _ _ _ _ _ _ _ _ Hkey Hprepare Hfetch).
  unfold DatabricksChatCompletionProvider.read_response, get.
  destruct (is_nullish data) eqn:Hdata.
  - destruct data; discriminate.
  - rewrite bind_Normal, Herror, Hformat. reflexivity.
Qed.

End ResultShape.

(** A prompt the parser rejects makes [callApi] reject before any request. *)
Example rejected_prompt_throws :
  DatabricksChatCompletionProvider.callApi
    (js := example_builtins) (helpers := rejecting_helpers)
    (keyed_provider None) Generation.empty ∅ (answering VNull) example_call
  = {| fetches := [];
       result := Throw (Error "Chat Completion prompt is not a valid JSON string") |}.
Proof. vm_compute. reflexivity. Qed.

(** An Error with an empty message prints as its name alone. *)
Example empty_message_exception :
  result (DatabricksChatCompletionProvider.callApi
            (js := example_builtins) (helpers := example_helpers)
            (keyed_provider None) Generation.empty ∅ (λ _, FetchThrows (Error ""))
            example_call)
  = Normal {| Response.error := Some "API call error: Error";
              Response.output := VUndefined;
              Response.tokenUsage := None;
              Response.cached := None;
              Response.logProbs := VUndefined;
              Response.cost := None |}.
Proof. vm_compute. reflexivity. Qed.



(** * Further properties of the provider *)

(** ** The request *)

Lemma header_app (name : string) (first later : list (string * string)) :
  header name (first ++ later) =
    match header name later with
    | Some v => Some v
    | None => header name first
    end.
Proof.
  induction first as [|[name' v] first IH]; cbn [app header].
  - now destruct (header name later).
  - rewrite IH. destruct (header name later); [reflexivity|].
    reflexivity.
Qed.

Section Request.
Context {js : Builtins} {helpers : RequestHelpers}.

(** X4. An invocation makes at most one request of the collaborator: none
    when no key resolves or when the request cannot be prepared (the prompt
    does not parse, a template does not render, the body does not print),
    and otherwise exactly the one built for the prepared body, whether the
    collaborator throws, answers an error or answers a completion. *)
Theorem callApi_fetches_once (p : Provider.t) (options : Generation.t)
    (process_env : env_map) (fetchWithCache : FetchRequest.t → FetchOutcome)
    (call : Call.t) :
  fetches (DatabricksChatCompletionProvider.callApi p options process_env
             fetchWithCache call)
  = if found_truthy (DatabricksGenericProvider.getApiKey p process_env)
    then match DatabricksChatCompletionProvider.prepare_body p options
                 process_env call with
         | Normal body =>
             [DatabricksChatCompletionProvider.build_request p process_env body]
         | Throw _ => []
         end
    else [].
Proof.
  unfold DatabricksChatCompletionProvider.callApi.
  destruct (found_truthy _); cbn [negb]; [|reflexivity].
  destruct (DatabricksChatCompletionProvider.prepare_body _ _ _ _); [|reflexivity].
  cbv zeta. destruct (fetchWithCache _); reflexivity.
Qed.

(** X5. A header of the config replaces the built-in header of the same
    name: the request's [Authorization] and [Content-Type] are the config's
    when it has them, and [Bearer {key}] and [application/json] when it has
    not; any other header is the config's. *)
Theorem request_headers (p : Provider.t) (process_env : env_map) (body : string)
    (name : string) :
  header name
    (FetchRequest.headers
       (DatabricksChatCompletionProvider.build_request p process_env body))
  = match header name (Config.headers (Provider.config p)) with
    | Some custom => Some custom
    | None =>
        if String.eqb name "Authorization"
        then Some ("Bearer "
                   +:+ found_text (DatabricksGenericProvider.getApiKey p process_env))
        else if String.eqb name "Content-Type" then Some "application/json"
        else None
    end.
Proof.
  unfold DatabricksChatCompletionProvider.build_request.
  cbn [FetchRequest.headers]. rewrite header_app.
  destruct (header name (Config.headers (Provider.config p))); [reflexivity|].
  cbn [header]. destruct (String.eqb name "Authorization"); reflexivity.
Qed.

(** The request carries the printed body, and goes to the chat-completions
    path of the base URL. *)
Lemma request_body_and_url (p : Provider.t) (process_env : env_map) (body : string) :
  FetchRequest.body
    (DatabricksChatCompletionProvider.build_request p process_env body) = body
  ∧ FetchRequest.method
      (DatabricksChatCompletionProvider.build_request p process_env body) = "POST"
  ∧ FetchRequest.url
      (DatabricksChatCompletionProvider.build_request p process_env body)
    = DatabricksGenericProvider.getApiUrl p process_env +:+ "/chat/completions".
Proof. repeat split. Qed.

End Request.

(** ** Log-probabilities *)

Lemma map_logprob_members (items : list value) :
  Forall (λ logProbObj, is_nullish logProbObj = false) items →
  DatabricksChatCompletionProvider.map_logprob items
  = Normal ((λ logProbObj, member logProbObj "logprob") <$> items).
Proof.
  induction 1 as [|logProbObj rest Hfirst _ IH]; [reflexivity|].
  cbn [DatabricksChatCompletionProvider.map_logprob].
  rewrite (get_member _ _ Hfirst), bind_Normal, IH. reflexivity.
Qed.

Lemma map_logprob_null_entry (before after : list value) (entry : value) :
  Forall (λ logProbObj, is_nullish logProbObj = false) before →
  is_nullish entry = true →
  DatabricksChatCompletionProvider.map_logprob (before ++ entry :: after)
  = Throw (cannot_read entry "logprob").
Proof.
  intros Hbefore Hentry.
  induction Hbefore as [|logProbObj rest Hfirst _ IH];
    cbn [app DatabricksChatCompletionProvider.map_logprob].
  - unfold get. now rewrite Hentry.
  - rewrite (get_member _ _ Hfirst), bind_Normal, IH. reflexivity.
Qed.

(** X6. The log-probabilities of the first choice: none (undefined) when the
    choice has no [logprobs] or they have no [content]; for a [content] list
    of entries, the list of their [logprob] members, one per entry in the
    same order; and a TypeError when an entry of the list is null. *)
Theorem logProbs_extracted (data choices choice : value) :
  get data "choices" = Normal choices →
  get_first choices = Normal choice →
  is_nullish choice = false →
  (is_nullish (get_optional (member choice "logprobs") "content") = true →
   DatabricksChatCompletionProvider.extract_logProbs data = Normal VUndefined)
  ∧ (∀ items,
       get_optional (member choice "logprobs") "content" = VArr items →
       Forall (λ logProbObj, is_nullish logProbObj = false) items →
       DatabricksChatCompletionProvider.extract_logProbs data
       = Normal (VArr ((λ logProbObj, member logProbObj "logprob") <$> items))
       ∧ length ((λ logProbObj, member logProbObj "logprob") <$> items)
         = length items)
  ∧ (∀ before entry after,
       get_optional (member choice "logprobs") "content"
       = VArr (before ++ entry :: after) →
       Forall (λ logProbObj, is_nullish logProbObj = false) before →
       is_nullish entry = true →
       DatabricksChatCompletionProvider.extract_logProbs data
       = Throw (cannot_read entry "logprob")).
Proof.
  intros Hchoices Hfirst Hchoice.
  unfold DatabricksChatCompletionProvider.extract_logProbs.
  rewrite Hchoices, bind_Normal, Hfirst, bind_Normal.
  rewrite (get_member _ _ Hchoice), bind_Normal.
  unfold get_optional.
  destruct (is_nullish (member choice "logprobs")) eqn:Hlog.
  - split; [reflexivity|]. split; [intros items [=] | intros before entry after [=]].
  - split; [|split].
    + now intros ->.
    + intros items -> Hitems. cbn [is_nullish].
      rewrite (map_logprob_members items Hitems), bind_Normal.
      split; [reflexivity | apply length_fmap].
    + intros before entry after -> Hbefore Hentry. cbn [is_nullish].
      now rewrite (map_logprob_null_entry before after entry Hbefore Hentry).
Qed.

Lemma logProbs_extracted_example :
  DatabricksChatCompletionProvider.extract_logProbs priced_body
  = Normal (VArr [VNum (-1); VNum (-2)]).
Proof.
  destruct (logProbs_extracted priced_body (VArr [priced_choice]) priced_choice
              eq_refl eq_refl eq_refl) as (_ & Harray & _).
  destruct (Harray _ eq_refl) as [Hvalue _].
  - repeat constructor.
  - exact Hvalue.
Defined.

(** ** Bodies that cannot be read *)

Section Unreadable.
Context {js : Builtins} {helpers : RequestHelpers}.

(** What [callApi] answers when the [try] block throws an exception that
    has a text. *)
Lemma callApi_caught (p : Provider.t) (options : Generation.t)
    (process_env : env_map) (fetchWithCache : FetchRequest.t → FetchOutcome)
    (call : Call.t) (body : string)
    (data : value) (cached : bool) (err : exn) (text : string) :
  found_truthy (DatabricksGenericProvider.getApiKey p process_env) = true →
  DatabricksChatCompletionProvider.prepare_body p options process_env call
    = Normal body →
  fetchWithCache (DatabricksChatCompletionProvider.build_request p process_env body)
    = FetchReturns data cached →
  is_nullish data = false →
  is_truthy (member data "error") = false →
  DatabricksChatCompletionProvider.read_success p data cached = Throw err →
  exn_text err = Normal text →
  result (DatabricksChatCompletionProvider.callApi p options process_env
            fetchWithCache call)
  = Normal {| Response.error :=
                Some ("API error: " +:+ text +:+ ": " +:+ JSON_stringify data);
              Response.output := VUndefined;
              Response.tokenUsage := None;
              Response.cached := None;
              Response.logProbs := VUndefined;
              Response.cost := None |}.
Proof.
  intros Hkey Hprepare Hfetch Hdata Herror Hread Htext.
  rewrite (callApi_fetched _ _ _ _ _ _ _ _ Hkey Hprepare Hfetch).
  unfold DatabricksChatCompletionProvider.read_response.
  rewrite (get_member _ _ Hdata), bind_Normal, Herror, Hread.
  cbn [try_catch]. rewrite Htext. reflexivity.
Qed.

(** X7. Once the request is prepared, a body without an [error] whose
    [choices] is missing or is an empty list gives the result
    [{ error: text }], with the TypeError of the failed read and the body in
    its text; nothing is thrown. *)
Theorem no_choices_is_an_error (p : Provider.t) (options : Generation.t)
    (process_env : env_map) (fetchWithCache : FetchRequest.t → FetchOutcome)
    (call : Call.t) (body : string) (data : value) (cached : bool) :
  found_truthy (DatabricksGenericProvider.getApiKey p process_env) = true →
  DatabricksChatCompletionProvider.prepare_body p options process_env call
    = Normal body →
  fetchWithCache (DatabricksChatCompletionProvider.build_request p process_env body)
    = FetchReturns data cached →
  is_nullish data = false →
  is_truthy (member data "error") = false →
  (member data "choices" = VUndefined →
   result (DatabricksChatCompletionProvider.callApi p options process_env
             fetchWithCache call)
   = Normal {| Response.error :=
                 Some ("API error: TypeError: Cannot read properties of undefined (reading '0'): "
                       +:+ JSON_stringify data);
               Response.output := VUndefined;
               Response.tokenUsage := None;
               Response.cached := None;
               Response.logProbs := VUndefined;
               Response.cost := None |})
  ∧ (member data "choices" = VArr [] →
     result (DatabricksChatCompletionProvider.callApi p options process_env
               fetchWithCache call)
     = Normal {| Response.error :=
                   Some ("API error: TypeError: Cannot read properties of undefined (reading 'message'): "
                         +:+ JSON_stringify data);
                 Response.output := VUndefined;
                 Response.tokenUsage := None;
                 Response.cached := None;
                 Response.logProbs := VUndefined;
                 Response.cost := None |}).
Proof.
  intros Hkey Hprepare Hfetch Hdata Herror.
  split; intros Hchoices.
  - rewrite (callApi_caught p options process_env fetchWithCache call body data cached
               (cannot_read VUndefined "0")
               "TypeError: Cannot read properties of undefined (reading '0')"
               Hkey Hprepare Hfetch Hdata Herror); [reflexivity| |reflexivity].
    unfold DatabricksChatCompletionProvider.read_success,
      DatabricksChatCompletionProvider.first_message.
    rewrite (get_member _ _ Hdata), Hchoices. reflexivity.
  - rewrite (callApi_caught p options process_env fetchWithCache call body data cached
               (cannot_read VUndefined "message")
               "TypeError: Cannot read properties of undefined (reading 'message')"
               Hkey Hprepare Hfetch Hdata Herror); [reflexivity| |reflexivity].
    unfold DatabricksChatCompletionProvider.read_success,
      DatabricksChatCompletionProvider.first_message.
    rewrite (get_member _ _ Hdata), Hchoices. reflexivity.
Qed.

(** X8. Log-probabilities that cannot be mapped spoil an otherwise readable
    response: once the request is prepared, when the first choice has a
    message but the [content] of its [logprobs] is present and is no list,
    the result is [{ error: text }] with the TypeError and the body in its
    text. *)
Theorem unmappable_logprobs_is_an_error (p : Provider.t) (options : Generation.t)
    (process_env : env_map) (fetchWithCache : FetchRequest.t → FetchOutcome)
    (call : Call.t) (body : string)
    (data : value) (cached : bool) (choices choice : value) :
  found_truthy (DatabricksGenericProvider.getApiKey p process_env) = true →
  DatabricksChatCompletionProvider.prepare_body p options process_env call
    = Normal body →
  fetchWithCache (DatabricksChatCompletionProvider.build_request p process_env body)
    = FetchReturns data cached →
  is_truthy (member data "error") = false →
  get data "choices" = Normal choices →
  get_first choices = Normal choice →
  is_nullish (member choice "message") = false →
  is_nullish (member choice "logprobs") = false →
  is_nullish (member (member choice "logprobs") "content") = false →
  (∀ items, member (member choice "logprobs") "content" ≠ VArr items) →
  result (DatabricksChatCompletionProvider.callApi p options process_env
            fetchWithCache call)
  = Normal {| Response.error :=
                Some ("API error: TypeError: data.choices[0].logprobs?.content?.map is not a function: "
                      +:+ JSON_stringify data);
              Response.output := VUndefined;
              Response.tokenUsage := None;
              Response.cached := None;
              Response.logProbs := VUndefined;
              Response.cost := None |}.
Proof.
  intros Hkey Hprepare Hfetch Herror Hchoices Hfirst Hmessage Hlog Hcontent Hshape.
  destruct (get_Normal _ _ _ Hchoices) as [Hdata _].
  assert (Hchoice : is_nullish choice = false)
    by (destruct choice; (reflexivity || discriminate Hmessage)).
  rewrite (callApi_caught p options process_env fetchWithCache call body data cached
             (TypeError "data.choices[0].logprobs?.content?.map is not a function")
             "TypeError: data.choices[0].logprobs?.content?.map is not a function"
             Hkey Hprepare Hfetch Hdata Herror); [reflexivity| |reflexivity].
  unfold DatabricksChatCompletionProvider.read_success,
    DatabricksChatCompletionProvider.first_message.
  rewrite Hchoices, bind_Normal, Hfirst, bind_Normal.
  rewrite (get_member _ _ Hchoice), bind_Normal.
  rewrite (select_output_value _ Hmessage), bind_Normal.
  unfold DatabricksChatCompletionProvider.extract_logProbs.
  rewrite Hchoices, bind_Normal, Hfirst, bind_Normal.
  rewrite (get_member _ _ Hchoice), bind_Normal, Hlog, Hcontent.
  destruct (member (member choice "logprobs") "content") as [| | | | |items|];
    try reflexivity.
  now destruct (Hshape items).
Qed.

End Unreadable.

Lemma no_choices_is_an_error_example :
  result (DatabricksChatCompletionProvider.callApi
            (js := example_builtins) (helpers := example_helpers)
            (keyed_provider None) Generation.empty ∅
            (answering (VObj [("choices", VArr [])])) example_call)
  = Normal {| Response.error :=
                Some "API error: TypeError: Cannot read properties of undefined (reading 'message'): {}";
              Response.output := VUndefined;
              Response.tokenUsage := None;
              Response.cached := None;
              Response.logProbs := VUndefined;
              Response.cost := None |}.
Proof.
  destruct (no_choices_is_an_error
              (js := example_builtins) (helpers := example_helpers)
              (keyed_provider None) Generation.empty ∅
              (answering (VObj [("choices", VArr [])])) example_call "{}"
              (VObj [("choices", VArr [])])
              false eq_refl (example_call_prepared _ _) eq_refl eq_refl eq_refl)
    as [_ Hempty].
  exact (Hempty eq_refl).
Defined.

Lemma unmappable_logprobs_is_an_error_example :
  result (DatabricksChatCompletionProvider.callApi
            (js := example_builtins) (helpers := example_helpers)
            (keyed_provider None) Generation.empty ∅
            (answering (VObj [("choices", VArr [unmappable_choice])])) example_call)
  = Normal {| Response.error :=
                Some "API error: TypeError: data.choices[0].logprobs?.content?.map is not a function: {}";
              Response.output := VUndefined;
              Response.tokenUsage := None;
              Response.cached := None;
              Response.logProbs := VUndefined;
              Response.cost := None |}.
Proof.
  apply (unmappable_logprobs_is_an_error
           (js := example_builtins) (helpers := example_helpers)
           (keyed_provider None) Generation.empty ∅
           (answering (VObj [("choices", VArr [unmappable_choice])])) example_call "{}"
           (VObj [("choices", VArr [unmappable_choice])]) false
           (VArr [unmappable_choice]) unmappable_choice
           eq_refl (example_call_prepared _ _) eq_refl eq_refl eq_refl eq_refl
           eq_refl eq_refl eq_refl).
  intros items. discriminate.
Defined.

(** ** What every success result carries *)

Section Accounting.
Context {js : Builtins} {helpers : RequestHelpers}.

Lemma read_success_accounting (p : Provider.t) (data : value) (cached : bool)
    (r : Response.t) :
  DatabricksChatCompletionProvider.read_success p data cached = Normal r →
  Response.cached r = Some cached
  ∧ (∃ tokenUsage,
       getTokenUsage data cached = Normal tokenUsage
       ∧ Response.tokenUsage r = Some tokenUsage)
  ∧ DatabricksChatCompletionProvider.extract_logProbs data
    = Normal (Response.logProbs r)
  ∧ calculateCost (Provider.modelName p) (Provider.config p)
      (get_optional (member data "usage") "prompt_tokens")
      (get_optional (member data "usage") "completion_tokens")
    = Normal (Response.cost r).
Proof.
  unfold DatabricksChatCompletionProvider.read_success.
  destruct (DatabricksChatCompletionProvider.first_message data)
    as [message|] eqn:Hmsg; [|discriminate].
  pose proof (first_message_data _ _ Hmsg) as Hdata.
  rewrite bind_Normal.
  destruct (DatabricksChatCompletionProvider.select_output message)
    as [output|]; [rewrite bind_Normal | discriminate].
  destruct (DatabricksChatCompletionProvider.extract_logProbs data)
    as [logProbs|]; [rewrite bind_Normal | discriminate].
  destruct (DatabricksChatCompletionProvider.carried_calls message)
    as [functionCalls|]; [rewrite bind_Normal | discriminate].
  match goal with
  | |- (?m ≫= _) = Normal _ → _ =>
      destruct m as [called|]; [rewrite bind_Normal | discriminate]
  end.
  rewrite (response_cost_value p data Hdata).
  destruct (getTokenUsage data cached) as [tokenUsage|] eqn:Husage;
    destruct called; rewrite ?bind_Normal, ?bind_Throw;
    try discriminate;
    (destruct (calculateCost _ _ _ _) as [cost|];
     rewrite ?bind_Normal, ?bind_Throw; [|discriminate]);
    intros [= <-]; cbn;
    (split; [reflexivity|]); (split; [eexists; split; reflexivity|]);
    split; reflexivity.
Qed.

(** X9. Every result without an error carries the accounting of the body it
    was read from, whether its output was selected from the message or
    answered by a callback: the cache flag of the fetch, the token usage of
    the body for that flag, the log-probabilities of the first choice, and
    the cost of the body's prompt and completion counts (a cache hit is
    priced like a fresh call). *)
Theorem success_carries_accounting (p : Provider.t) (options : Generation.t)
    (process_env : env_map) (fetchWithCache : FetchRequest.t → FetchOutcome)
    (call : Call.t) (body : string)
    (data : value) (cached : bool) (r : Response.t) :
  DatabricksChatCompletionProvider.prepare_body p options process_env call
    = Normal body →
  fetchWithCache (DatabricksChatCompletionProvider.build_request p process_env body)
    = FetchReturns data cached →
  result (DatabricksChatCompletionProvider.callApi p options process_env
            fetchWithCache call)
    = Normal r →
  Response.error r = None →
  Response.cached r = Some cached
  ∧ (∃ tokenUsage,
       getTokenUsage data cached = Normal tokenUsage
       ∧ Response.tokenUsage r = Some tokenUsage)
  ∧ DatabricksChatCompletionProvider.extract_logProbs data
    = Normal (Response.logProbs r)
  ∧ calculateCost (Provider.modelName p) (Provider.config p)
      (get_optional (member data "usage") "prompt_tokens")
      (get_optional (member data "usage") "completion_tokens")
    = Normal (Response.cost r).
Proof.
  intros Hprepare Hfetch. unfold DatabricksChatCompletionProvider.callApi.
  destruct (found_truthy _); cbn [negb]; [|discriminate].
  rewrite Hprepare. cbv zeta. rewrite Hfetch. cbn [result].
  unfold DatabricksChatCompletionProvider.read_response, get.
  destruct (is_nullish data) eqn:Hdata; [discriminate|]. rewrite bind_Normal.
  destruct (is_truthy (member data "error")) eqn:Herror.
  - destruct (formatDatabricksError data); [rewrite bind_Normal | discriminate].
    intros [= <-]. discriminate.
  - destruct (DatabricksChatCompletionProvider.read_success p data cached)
      as [r'|err] eqn:Hread; cbn [try_catch].
    + intros [= <-] _. exact (read_success_accounting _ _ _ _ Hread).
    + destruct (exn_text err); [rewrite bind_Normal | discriminate].
      intros [= <-]. discriminate.
Qed.

(** ** Callbacks *)

(** X10. A callback that rejects does not make [callApi] reject: when the
    rejection has a text (as every Error has: its name when its message is
    empty, and otherwise its name, a colon and its message), the result is
    [{ error: text }] with the rejection and the body in its text. *)
Theorem callback_rejection_is_caught (p : Provider.t) (options : Generation.t)
    (process_env : env_map) (fetchWithCache : FetchRequest.t → FetchOutcome)
    (call : Call.t) (body : string)
    (data : value) (cached : bool) (message logProbs : value)
    (callbacks : gmap string callback) (key : string) (registered : callback)
    (rejection : exn) (text : string) :
  found_truthy (DatabricksGenericProvider.getApiKey p process_env) = true →
  DatabricksChatCompletionProvider.prepare_body p options process_env call
    = Normal body →
  fetchWithCache (DatabricksChatCompletionProvider.build_request p process_env body)
    = FetchReturns data cached →
  is_truthy (member data "error") = false →
  DatabricksChatCompletionProvider.first_message data = Normal message →
  is_nullish message = false →
  DatabricksChatCompletionProvider.extract_logProbs data = Normal logProbs →
  is_truthy (member message "function_call") = true →
  Config.functionToolCallbacks (Provider.config p) = Some callbacks →
  ToString (member (member message "function_call") "name") = Normal key →
  callbacks !! key = Some registered →
  registered (member (member message "function_call") "arguments")
    = Throw rejection →
  exn_text rejection = Normal text →
  result (DatabricksChatCompletionProvider.callApi p options process_env
            fetchWithCache call)
  = Normal {| Response.error :=
                Some ("API error: " +:+ text +:+ ": " +:+ JSON_stringify data);
              Response.output := VUndefined;
              Response.tokenUsage := None;
              Response.cached := None;
              Response.logProbs := VUndefined;
              Response.cost := None |}
  ∧ (∀ msg, rejection = Error msg →
       text = if String.eqb msg "" then "Error" else "Error: " +:+ msg).
Proof.
  intros Hkey Hprepare Hfetch Herror Hmsg Hmessage Hlog Hfc Htable Hname Hfound
    Hreject Htext.
  pose proof (first_message_data _ _ Hmsg) as Hdata.
  split.
  - apply (callApi_caught p options process_env fetchWithCache call body data cached
             rejection text Hkey Hprepare Hfetch Hdata Herror); [|exact Htext].
    rewrite (read_success_function_call p data cached message logProbs callbacks key
               registered Hmsg Hmessage Hlog Hfc Htable Hname Hfound).
    rewrite Hreject. reflexivity.
  - intros msg ->. cbn in Htext. injection Htext as <-. unfold error_text.
    destruct (String.eqb msg ""); reflexivity.
Qed.

(** X11. A [function_call] hides the [tool_calls] from the callbacks: when
    the message carries a [function_call] under whose name the table holds
    nothing (no callback and no inherited member), no callback runs,
    whatever the tool calls are named, and the output is the one selected
    from the message. *)
Theorem function_call_hides_tool_calls (p : Provider.t) (options : Generation.t)
    (process_env : env_map) (fetchWithCache : FetchRequest.t → FetchOutcome)
    (call : Call.t) (body : string)
    (data : value) (cached : bool) (message logProbs : value)
    (callbacks : gmap string callback) (key : string) (cost : option float) :
  found_truthy (DatabricksGenericProvider.getApiKey p process_env) = true →
  DatabricksChatCompletionProvider.prepare_body p options process_env call
    = Normal body →
  fetchWithCache (DatabricksChatCompletionProvider.build_request p process_env body)
    = FetchReturns data cached →
  is_truthy (member data "error") = false →
  DatabricksChatCompletionProvider.first_message data = Normal message →
  is_nullish message = false →
  DatabricksChatCompletionProvider.extract_logProbs data = Normal logProbs →
  DatabricksChatCompletionProvider.response_cost p data = Normal cost →
  is_truthy (member message "function_call") = true →
  Config.functionToolCallbacks (Provider.config p) = Some callbacks →
  ToString (member (member message "function_call") "name") = Normal key →
  callbacks !! key = None →
  inherited key = false →
  ∃ r,
    result (DatabricksChatCompletionProvider.callApi p options process_env
              fetchWithCache call)
      = Normal r
    ∧ Response.error r = None
    ∧ DatabricksChatCompletionProvider.select_output message
      = Normal (Response.output r).
Proof.
  intros Hkey Hprepare Hfetch Herror Hmsg Hmessage Hlog Hcost Hfc Htable Hname
    Habsent Hplain.
  assert (Hnone : no_callback_applies p message).
  { right. right. exists callbacks, [member message "function_call"].
    cbv zeta. rewrite Hfc. split; [exact Htable|]. split; [reflexivity|].
    constructor; [|constructor].
    split; [exact (truthy_not_nullish _ Hfc)|].
    exists key. split; [exact Hname|].
    unfold lookup_by_name. now rewrite Habsent, Hplain. }
  destruct (callApi_plain p options process_env fetchWithCache call body
              data cached message logProbs cost
              Hkey Hprepare Hfetch Herror Hmsg Hmessage Hlog Hcost Hnone)
    as (r & Hr & Herr & Hout & _).
  eauto.
Qed.

(** ** The text of an error result *)

(** X12. The text of an error result tells where the failure arose: it
    begins with ["API call error: "] when the collaborator threw, and with
    ["API error: "] when the collaborator answered (an error body, or a body
    that could not be read). *)
Theorem error_text_prefix (p : Provider.t) (options : Generation.t)
    (process_env : env_map) (fetchWithCache : FetchRequest.t → FetchOutcome)
    (call : Call.t) (body : string) (r : Response.t) (text : string) :
  DatabricksChatCompletionProvider.prepare_body p options process_env call
    = Normal body →
  result (DatabricksChatCompletionProvider.callApi p options process_env
            fetchWithCache call)
    = Normal r →
  Response.error r = Some text →
  match fetchWithCache
          (DatabricksChatCompletionProvider.build_request p process_env body) with
  | FetchThrows _ => starts_with text "API call error: "
  | FetchReturns _ _ => starts_with text "API error: "
  end.
Proof.
  intros Hprepare. unfold DatabricksChatCompletionProvider.callApi.
  destruct (found_truthy _); cbn [negb]; [|discriminate].
  rewrite Hprepare. cbv zeta.
  destruct (fetchWithCache _) as [thrown | data cached]; cbn [result].
  - destruct (exn_text thrown); [rewrite bind_Normal | discriminate].
    intros [= <-] [= <-]. eexists. reflexivity.
  - unfold DatabricksChatCompletionProvider.read_response, get.
    destruct (is_nullish data) eqn:Hdata; [discriminate|]. rewrite bind_Normal.
    destruct (is_truthy (member data "error")) eqn:Herror.
    + destruct (formatDatabricksError data) as [built|] eqn:Hbuilt;
        [rewrite bind_Normal | discriminate].
      intros [= <-] [= <-]. exact (formatDatabricksError_prefix _ _ Hbuilt).
    + destruct (DatabricksChatCompletionProvider.read_success p data cached)
        as [r'|err] eqn:Hread; cbn [try_catch].
      * intros [= <-] Htext.
        rewrite (read_success_no_error _ _ _ _ Hread) in Htext. discriminate Htext.
      * destruct (exn_text err); [rewrite bind_Normal | discriminate].
        intros [= <-] [= <-]. eexists. reflexivity.
Qed.

End Accounting.

Lemma success_carries_accounting_example :
  ∃ r,
    result (DatabricksChatCompletionProvider.callApi
              (js := example_builtins) (helpers := example_helpers)
              (keyed_provider None) Generation.empty ∅
              (answering priced_body) example_call) = Normal r
    ∧ Response.cached r = Some false
    ∧ Response.logProbs r = VArr [VNum (-1); VNum (-2)]
    ∧ calculateCost (js := example_builtins) "databricks-dbrx-instruct"
        (keyed_config None) (VNum 10) (VNum 20)
      = Normal (Response.cost r).
Proof.
  eexists. split; [vm_compute; reflexivity|].
  match goal with
  | |- Response.cached ?r = _ ∧ _ =>
      destruct (success_carries_accounting
                  (js := example_builtins) (helpers := example_helpers)
                  (keyed_provider None) Generation.empty ∅ (answering priced_body)
                  example_call "{}" priced_body false r
                  (example_call_prepared _ _) eq_refl eq_refl eq_refl)
        as (Hcached & _ & Hlog & Hcost)
  end.
  split; [exact Hcached|]. split; [reflexivity | exact Hcost].
Defined.

Lemma callback_rejection_is_caught_example :
  result (DatabricksChatCompletionProvider.callApi
            (js := example_builtins) (helpers := example_helpers)
            (keyed_provider (Some (rejecting "lookup"))) Generation.empty ∅
            (answering (chat_body lookup_call_message)) example_call)
  = Normal {| Response.error := Some "API error: Error: lookup failed: {}";
              Response.output := VUndefined;
              Response.tokenUsage := None;
              Response.cached := None;
              Response.logProbs := VUndefined;
              Response.cost := None |}.
Proof.
  exact (proj1
           (callback_rejection_is_caught
              (js := example_builtins) (helpers := example_helpers)
              (keyed_provider (Some (rejecting "lookup"))) Generation.empty ∅
              (answering (chat_body lookup_call_message)) example_call "{}"
              (chat_body lookup_call_message) false lookup_call_message
              VUndefined (rejecting "lookup") "lookup"
              (λ _, Throw (Error "lookup failed"))
              (Error "lookup failed") "Error: lookup failed"
              eq_refl (example_call_prepared _ _) eq_refl eq_refl eq_refl eq_refl
              eq_refl eq_refl eq_refl eq_refl eq_refl eq_refl eq_refl)).
Defined.

Lemma function_call_hides_tool_calls_example :
  ∃ r,
    result (DatabricksChatCompletionProvider.callApi
              (js := example_builtins) (helpers := example_helpers)
              (keyed_provider (Some (answer_42 "f"))) Generation.empty ∅
              (answering (chat_body shadowing_message)) example_call) = Normal r
    ∧ Response.error r = None
    ∧ Response.output r = VObj [("name", VStr "g"); ("arguments", VStr "{}")].
Proof.
  destruct (function_call_hides_tool_calls
              (js := example_builtins) (helpers := example_helpers)
              (keyed_provider (Some (answer_42 "f"))) Generation.empty ∅
              (answering (chat_body shadowing_message)) example_call "{}"
              (chat_body shadowing_message) false shadowing_message VUndefined
              (answer_42 "f") "g" None
              eq_refl (example_call_prepared _ _) eq_refl eq_refl eq_refl eq_refl
              eq_refl eq_refl eq_refl eq_refl eq_refl eq_refl eq_refl)
    as (r & Hr & Herror & Hout).
  exists r. split; [exact Hr|]. split; [exact Herror|].
  assert (Hsame : Normal (Response.output r)
                  = Normal (VObj [("name", VStr "g"); ("arguments", VStr "{}")]))
    by (rewrite <- Hout; reflexivity).
  now injection Hsame.
Defined.

Lemma error_text_prefix_example :
  ∃ text,
    result (DatabricksChatCompletionProvider.callApi
              (js := example_builtins) (helpers := example_helpers)
              (keyed_provider None) Generation.empty ∅
              (answering bad_request_body) example_call)
    = Normal {| Response.error := Some text;
                Response.output := VUndefined;
                Response.tokenUsage := None;
                Response.cached := None;
                Response.logProbs := VUndefined;
                Response.cost := None |}
    ∧ starts_with text "API error: ".
Proof.
  eexists. split; [vm_compute; reflexivity|].
  exact (error_text_prefix
           (js := example_builtins) (helpers := example_helpers)
           (keyed_provider None) Generation.empty ∅
           (answering bad_request_body) example_call "{}" _ _
           (example_call_prepared _ _) eq_refl eq_refl).
Defined.

(** ** Objects under construction *)

Lemma own_define_eq (k : string) (v : value) (fields : list (string * value)) :
  own k (define k v fields) = v.
Proof.
  induction fields as [|[k' v'] rest IH]; cbn [define own].
  - now rewrite String.eqb_refl.
  - destruct (String.eqb k k') eqn:Hk; cbn [own]; rewrite ?String.eqb_refl, ?Hk;
      [reflexivity | exact IH].
Qed.

Lemma own_define_ne (k k' : string) (v : value) (fields : list (string * value)) :
  k ≠ k' → own k (define k' v fields) = own k fields.
Proof.
  intros Hne. apply String.eqb_neq in Hne.
  induction fields as [|[k'' v''] rest IH]; cbn [define own].
  - now rewrite Hne.
  - destruct (String.eqb k' k'') eqn:Hk; cbn [own].
    + apply String.eqb_eq in Hk as <-. now rewrite Hne.
    + now rewrite IH.
Qed.

Lemma keys_define (k : string) (v : value) (fields : list (string * value)) (x : string) :
  x ∈ keys (define k v fields) ↔ x = k ∨ x ∈ keys fields.
Proof.
  unfold keys. induction fields as [|[k' v'] rest IH]; cbn [define fmap list_fmap].
  - rewrite list_elem_of_singleton, elem_of_nil. tauto.
  - destruct (String.eqb_spec k k') as [<-|Hne]; cbn [fmap list_fmap fst].
    + rewrite !elem_of_cons. tauto.
    + rewrite !elem_of_cons, IH. tauto.
Qed.

Lemma NoDup_define (k : string) (v : value) (fields : list (string * value)) :
  NoDup (keys fields) → NoDup (keys (define k v fields)).
Proof.
  unfold keys. induction fields as [|[k' v'] rest IH]; cbn [define fmap list_fmap].
  - intros _. apply NoDup_singleton.
  - rewrite NoDup_cons. intros [Hfresh Hrest].
    destruct (String.eqb_spec k k') as [<-|Hne]; cbn [fmap list_fmap fst].
    + apply NoDup_cons. auto.
    + apply NoDup_cons. split; [|auto].
      intros Hin. apply (keys_define k v rest k') in Hin as [->|Hin]; auto.
Qed.

Lemma own_spread_absent (k : string) (source target : list (string * value)) :
  k ∉ keys source → own k (spread source target) = own k target.
Proof.
  unfold spread, keys. revert target.
  induction source as [|[k' v'] rest IH]; intros target Habsent; [reflexivity|].
  cbn [foldl fmap list_fmap fst] in *. rewrite not_elem_of_cons in Habsent.
  destruct Habsent as [Hne Hrest]. rewrite (IH _ Hrest). cbn [fst snd].
  now apply own_define_ne.
Qed.

Lemma own_spread_present (k : string) (source target : list (string * value)) :
  NoDup (keys source) → k ∈ keys source →
  own k (spread source target) = own k source.
Proof.
  unfold spread, keys. revert target.
  induction source as [|[k' v'] rest IH]; intros target Hdistinct Hin.
  - now apply elem_of_nil in Hin.
  - cbn [foldl fmap list_fmap fst snd own] in *.
    apply NoDup_cons in Hdistinct as [Hfresh Hrest].
    destruct (String.eqb_spec k k') as [->|Hne].
    + change (foldl _ ?t rest) with (spread rest t).
      rewrite (own_spread_absent k' rest _ Hfresh). apply own_define_eq.
    + apply elem_of_cons in Hin as [Heq|Hin]; [contradiction|]. now apply IH.
Qed.

Lemma keys_spread (source target : list (string * value)) (x : string) :
  x ∈ keys (spread source target) ↔ x ∈ keys target ∨ x ∈ keys source.
Proof.
  unfold spread. revert target.
  induction source as [|[k' v'] rest IH]; intros target; cbn [foldl fst snd].
  - unfold keys at 3. cbn. rewrite elem_of_nil. tauto.
  - rewrite IH, keys_define. unfold keys at 4. cbn [fmap list_fmap fst].
    rewrite elem_of_cons. unfold keys. tauto.
Qed.

Lemma NoDup_spread (source target : list (string * value)) :
  NoDup (keys target) → NoDup (keys (spread source target)).
Proof.
  unfold spread. revert target.
  induction source as [|[k' v'] rest IH]; intros target Htarget; [exact Htarget|].
  cbn [foldl fst snd]. apply IH, NoDup_define, Htarget.
Qed.

Lemma keys_when_truthy (name : string) (o : option value) (x : string) :
  x ∈ keys (when_truthy name o) → x = name.
Proof.
  unfold when_truthy, keys. destruct o as [v|]; [destruct (is_truthy v)|]; cbn.
  - now rewrite list_elem_of_singleton.
  - now rewrite elem_of_nil.
  - now rewrite elem_of_nil.
Qed.

Lemma keys_when_some (name : string) (o : option value) (x : string) :
  x ∈ keys (when_some name o) → x = name.
Proof.
  unfold when_some, keys. destruct o as [v|]; cbn.
  - now rewrite list_elem_of_singleton.
  - now rewrite elem_of_nil.
Qed.

Lemma env_or_unset (process_env : env_map) (name literal : string) :
  str_truthy (process_env !! name) = false →
  env_or process_env name literal = literal.
Proof. unfold env_or, str_or. now intros ->. Qed.

Lemma env_or_set (process_env : env_map) (name literal text : string) :
  process_env !! name = Some text → text ≠ "" →
  env_or process_env name literal = text.
Proof.
  unfold env_or, str_or. intros -> Htext. cbn.
  apply String.eqb_neq in Htext. now rewrite Htext.
Qed.

(** ** The request body *)

Section Body.
Context {helpers : RequestHelpers}.

Lemma build_body_inv (p : Provider.t) (options : Generation.t)
    (process_env : env_map) (prompt : string) (vars : value)
    (includeLogProbs : option bool) (body : list (string * value)) :
  build_body p options process_env prompt vars includeLogProbs = Normal body →
  ∃ messages functions tools,
    parseChatPrompt prompt
      (VArr [VObj [("role", VStr "user"); ("content", VStr prompt)]])
    = Normal messages
    ∧ render_optional (Generation.functions options) vars = Normal functions
    ∧ render_optional (Generation.tools options) vars = Normal tools
    ∧ body = assemble_body (Provider.modelName p) options process_env messages
               functions tools includeLogProbs.
Proof.
  unfold build_body.
  destruct (parseChatPrompt _ _) as [messages|]; [rewrite bind_Normal | discriminate].
  destruct (render_optional (Generation.functions options) vars) as [functions|];
    [rewrite bind_Normal | discriminate].
  destruct (render_optional (Generation.tools options) vars) as [tools|];
    [rewrite bind_Normal | discriminate].
  intros [= <-]. eauto 10.
Qed.

(** The lookup of a name the passthrough does not hold skips the passthrough. *)
Ltac skip_part :=
  rewrite own_spread_absent;
  [| first [ assumption
           | apply not_elem_of_nil
           | intros Hin; apply keys_when_truthy in Hin; discriminate Hin
           | intros Hin; apply keys_when_some in Hin; discriminate Hin
           | match goal with
             | |- _ ∉ keys (match ?o with _ => _ end) =>
                 destruct o as [[|]|]; unfold keys; cbn;
                 rewrite ?list_elem_of_singleton, ?elem_of_nil;
                 first [ tauto | discriminate ]
             end ] ].

(** A name written out is one of [body_names]. *)
Ltac named_member := apply list_elem_of_In; cbn; tauto.

(** X13. The passthrough object is merged last: every member it holds is in
    the body with the passthrough's value, whatever the config or the
    environment say about that name. *)
Theorem body_passthrough_wins (p : Provider.t) (options : Generation.t)
    (process_env : env_map) (prompt : string) (vars : value)
    (includeLogProbs : option bool) (body passthrough : list (string * value)) :
  build_body p options process_env prompt vars includeLogProbs = Normal body →
  Generation.passthrough options = Some passthrough →
  NoDup (keys passthrough) →
  ∀ k, k ∈ keys passthrough → own k body = own k passthrough.
Proof.
  intros Hbody Hpass Hdistinct k Hk.
  destruct (build_body_inv _ _ _ _ _ _ _ Hbody)
    as (messages & functions & tools & _ & _ & _ & ->).
  unfold assemble_body. rewrite Hpass. cbn [default].
  now apply own_spread_present.
Qed.

(** X14. The sampling parameters of the body. Unless the passthrough holds
    the name, each is the config's value when the config has one (a value
    of [0] included), and otherwise what the environment variable parses to,
    the literal default standing in for a variable that is unset or empty:
    [1024] for [max_tokens], [0] for [temperature] and the two penalties,
    [1] for [top_p]. The model is the provider's model name. *)
Theorem body_sampling (p : Provider.t) (options : Generation.t)
    (process_env : env_map) (prompt : string) (vars : value)
    (includeLogProbs : option bool) (body : list (string * value)) :
  build_body p options process_env prompt vars includeLogProbs = Normal body →
  let held := keys (default [] (Generation.passthrough options)) in
  ("model" ∉ held → own "model" body = VStr (Provider.modelName p))
  ∧ ("max_tokens" ∉ held →
     own "max_tokens" body
     = VNum (default (parseInt (env_or process_env "DATABRICKS_MAX_TOKENS" "1024"))
                     (Generation.max_tokens options)))
  ∧ ("temperature" ∉ held →
     own "temperature" body
     = VNum (default (parseFloat (env_or process_env "DATABRICKS_TEMPERATURE" "0"))
                     (Generation.temperature options)))
  ∧ ("top_p" ∉ held →
     own "top_p" body
     = VNum (default (parseFloat (env_or process_env "DATABRICKS_TOP_P" "1"))
                     (Generation.top_p options)))
  ∧ ("presence_penalty" ∉ held →
     own "presence_penalty" body
     = VNum (default
               (parseFloat (env_or process_env "DATABRICKS_PRESENCE_PENALTY" "0"))
               (Generation.presence_penalty options)))
  ∧ ("frequency_penalty" ∉ held →
     own "frequency_penalty" body
     = VNum (default
               (parseFloat (env_or process_env "DATABRICKS_FREQUENCY_PENALTY" "0"))
               (Generation.frequency_penalty options)))
  ∧ (∀ name literal,
       str_truthy (process_env !! name) = false →
       env_or process_env name literal = literal).
Proof.
  intros Hbody held.
  destruct (build_body_inv _ _ _ _ _ _ _ Hbody)
    as (messages & functions & tools & _ & _ & _ & ->).
  unfold assemble_body. subst held.
  repeat split; try (intros Hfree; do 8 skip_part; reflexivity).
  intros name literal. apply env_or_unset.
Qed.


(** X16. The members of the body: no name occurs twice; the seven members
    of the literal ([model], [messages] and the five sampling parameters)
    are always there; and every member is one of the fourteen names the
    literal can write or a member of the passthrough. In particular
    [best_of] is sent only when the passthrough holds it. *)
Theorem body_members (p : Provider.t) (options : Generation.t)
    (process_env : env_map) (prompt : string) (vars : value)
    (includeLogProbs : option bool) (body : list (string * value)) :
  build_body p options process_env prompt vars includeLogProbs = Normal body →
  NoDup (keys body)
  ∧ (∀ k, k ∈ take 7 body_names → k ∈ keys body)
  ∧ (∀ k, k ∈ keys body →
       k ∈ body_names ∨ k ∈ keys (default [] (Generation.passthrough options)))
  ∧ ("best_of" ∉ keys (default [] (Generation.passthrough options)) →
     "best_of" ∉ keys body).
Proof.
  intros Hbody.
  destruct (build_body_inv _ _ _ _ _ _ _ Hbody)
    as (messages & functions & tools & _ & _ & _ & ->).
  assert (Hbound : ∀ k,
    k ∈ keys (assemble_body (Provider.modelName p) options process_env messages
                functions tools includeLogProbs) →
    k ∈ body_names ∨ k ∈ keys (default [] (Generation.passthrough options))).
  { intros k. unfold assemble_body. rewrite !keys_spread.
    intros [[[[[[[[Hin|Hin]|Hin]|Hin]|Hin]|Hin]|Hin]|Hin]|Hin]; [| | | | | | | |now right];
      left.
    - unfold keys in Hin. cbn in Hin. unfold body_names.
      rewrite !elem_of_cons in Hin. rewrite !elem_of_cons. tauto.
    - apply keys_when_some in Hin as ->. named_member.
    - apply keys_when_truthy in Hin as ->. named_member.
    - apply keys_when_some in Hin as ->. named_member.
    - apply keys_when_truthy in Hin as ->. named_member.
    - apply keys_when_truthy in Hin as ->. named_member.
    - destruct includeLogProbs as [[|]|]; unfold keys in Hin; cbn in Hin;
        try (now apply elem_of_nil in Hin).
      apply list_elem_of_singleton in Hin as ->. named_member.
    - apply keys_when_truthy in Hin as ->. named_member. }
  split; [|split; [|split]].
  - unfold assemble_body. do 8 apply NoDup_spread.
    apply NoDup_ListNoDup. unfold keys. cbn.
    repeat (constructor; [cbn; intuition discriminate|]). constructor.
  - intros k Hk. unfold assemble_body. rewrite !keys_spread. do 8 left.
    unfold keys. cbn in *. exact Hk.
  - exact Hbound.
  - intros Hfree Hin. destruct (Hbound _ Hin) as [Hnamed|Hheld]; [|contradiction].
    apply list_elem_of_In in Hnamed. cbn in Hnamed. intuition discriminate.
Qed.

End Body.

(** The body for the prompt ["Hello"] under [example_options], with
    log-probabilities asked for. *)
Lemma body_passthrough_wins_example :
  ∃ body,
    build_body (helpers := example_helpers) (keyed_provider None) example_options
      ∅ "Hello" VUndefined (Some true) = Normal body
    ∧ own "max_tokens" body = VNum 99
    ∧ own "seed" body = VNum 1.
Proof.
  eexists. split; [vm_compute; reflexivity|].
  match goal with
  | |- own _ ?body = _ ∧ _ =>
      assert (Hbuild : build_body (helpers := example_helpers) (keyed_provider None)
                         example_options ∅ "Hello" VUndefined (Some true)
                       = Normal body) by (vm_compute; reflexivity)
  end.
  assert (Hpass : Generation.passthrough example_options
                  = Some [("max_tokens", VNum 99); ("seed", VNum 1)])
    by reflexivity.
  assert (Hdistinct : NoDup (keys [("max_tokens", VNum 99); ("seed", VNum 1)])).
  { apply NoDup_ListNoDup. unfold keys. cbn.
    repeat (constructor; [cbn; intuition discriminate|]). constructor. }
  pose proof (body_passthrough_wins _ _ _ _ _ _ _ _ Hbuild Hpass Hdistinct) as Hwins.
  split.
  - apply (Hwins "max_tokens"). apply list_elem_of_In. cbn. tauto.
  - apply (Hwins "seed"). apply list_elem_of_In. cbn. tauto.
Defined.

Lemma body_sampling_example :
  ∃ body,
    build_body (helpers := example_helpers) (keyed_provider None) example_options
      ∅ "Hello" VUndefined (Some true) = Normal body
    ∧ own "model" body = VStr "databricks-dbrx-instruct"
    ∧ own "temperature" body = VNum 0
    ∧ own "top_p" body = VNum (parseFloat (RequestHelpers := example_helpers) "1").
Proof.
  eexists. split; [vm_compute; reflexivity|].
  match goal with
  | |- own _ ?body = _ ∧ _ =>
      assert (Hbuild : build_body (helpers := example_helpers) (keyed_provider None)
                         example_options ∅ "Hello" VUndefined (Some true)
                       = Normal body) by (vm_compute; reflexivity)
  end.
  destruct (body_sampling _ _ _ _ _ _ _ Hbuild)
    as (Hmodel & _ & Htemperature & Htop_p & _).
  split; [|split].
  - apply Hmodel. intros Hin. apply list_elem_of_In in Hin. cbn in Hin.
    intuition discriminate.
  - apply Htemperature. intros Hin. apply list_elem_of_In in Hin. cbn in Hin.
    intuition discriminate.
  - apply Htop_p. intros Hin. apply list_elem_of_In in Hin. cbn in Hin.
    intuition discriminate.
Defined.


Lemma body_members_example :
  ∃ body,
    build_body (helpers := example_helpers) (keyed_provider None) example_options
      ∅ "Hello" VUndefined (Some true) = Normal body
    ∧ NoDup (keys body)
    ∧ "best_of" ∉ keys body.
Proof.
  eexists. split; [vm_compute; reflexivity|].
  match goal with
  | |- NoDup (keys ?body) ∧ _ =>
      assert (Hbuild : build_body (helpers := example_helpers) (keyed_provider None)
                         example_options ∅ "Hello" VUndefined (Some true)
                       = Normal body) by (vm_compute; reflexivity)
  end.
  destruct (body_members _ _ _ _ _ _ _ Hbuild)
    as (Hdistinct & _ & _ & Hbest_of).
  split; [exact Hdistinct|].
  apply Hbest_of. intros Hin. apply list_elem_of_In in Hin. cbn in Hin.
  intuition discriminate.
Defined.
